(** * goja-runner: host/script bridge over an embedded JavaScript engine

    A shallow embedding of package [jsrunner] (the synchronous [Runner], the
    value export helpers and the [EventLoopRunner]) and the properties its
    specification states about it.

    The package is glue over two external collaborators: the goja engine and
    the goja_nodejs event loop.  Their behaviour enters this development in
    three clearly separated ways:
    - values and conversions that the package calls directly ([ToValue],
      [ToInteger], [ToBoolean], ...) are written out for the primitive kinds;
    - the parser and interpreter are an interface ([Engine]);
    - the cooperative loop is a small state machine in logical time.

    Strings are sequences of code points below 256 (one [ascii] each). *)

From Stdlib Require Import ZArith String Ascii List Bool Lia.
From Stdlib Require Import Floats.SpecFloat Sorting.Sorted.
From stdpp Require Import gmap strings pretty list.

(** ** Host values and script values *)

(** Go's [float64], as the IEEE-754 binary64 specification floats. *)
Definition float64 : Type := spec_float.

(** [float64(i)] for an integer [i]: round to nearest, ties to even. *)
Definition float64_of_Z (i : Z) : float64 := binary_normalize 53 1024 i 0 false.

(** The integer part of a finite double (truncation toward zero);
    [None] for NaN and the infinities. *)
Definition float64_trunc (f : float64) : option Z :=
  match f with
  | S754_zero _ => Some 0%Z
  | S754_finite s m e =>
      let a := Z.shiftl (Zpos m) e in Some (if s then (- a)%Z else a)
  | S754_infinity _ | S754_nan => None
  end.

Definition MaxInt64 : Z := (2 ^ 63 - 1)%Z.
Definition MinInt64 : Z := (- 2 ^ 63)%Z.

(** goja's [maxInt]: integers of magnitude up to 2^53 are kept exact. *)
Definition maxInt : Z := (2 ^ 53)%Z.

(** A Go value of static type [interface{}], as the host hands it over.  A
    function value is known by a name; [GoOther] is a map or a struct without
    methods of its own, known by the text that [%v] prints for it. *)
Inductive GoValue : Type :=
| GoNil
| GoString (s : string)
| GoInt (i : Z)
| GoFloat (f : float64)
| GoBool (b : bool)
| GoFunc (name : string)
| GoOther (repr : string).

(** A [goja.Value].  Numbers have goja's two representations.  An object is
    summarised by what this package can observe of it: whether it has a
    callable [then] (and how that promise behaves), what [Export], [String]
    and the numeric conversion give for it.  A promise-like object either
    throws when [then] and [catch] are called on it, or settles, fulfilled or
    rejected with [v], a number of loop iterations after the script that
    attached the continuations has ended, or never settles. *)
Inductive Value : Type :=
| valueUndefined
| valueNull
| valueBool (b : bool)
| valueInt (i : Z)
| valueFloat (f : float64)
| valueString (s : string)
| valueObject (o : Object)
with Object : Type :=
| mkObject (then_ : option Thenable) (exported : GoValue)
           (toString : string) (toNumber : float64)
with Thenable : Type :=
| thenThrows (exc : Value)
| settles (ticks : nat) (fulfilled : bool) (v : Value)
| neverSettles.

(** Go [error] values produced by the package and by the engine. *)
Inductive error : Type :=
| errorString (msg : string)
| wrapError (prefix : string) (err : error)
| Exception (thrown : Value)
| CompilerSyntaxError (msg : string).

(** The pure conversions of the engine that depend on number syntax. *)
Class NumberText : Type := {
  StringToNumber : string -> Value;
  NumberToString : float64 -> string;
  FormatFloat : float64 -> string
}.

Section ValueBridge.
Context `{NumberText}.

Definition intToValue (i : Z) : Value :=
  if ((- maxInt <=? i) && (i <=? maxInt))%Z then valueInt i
  else valueFloat (float64_of_Z i).

(** goja's [floatToInt]: the integer that a double is, when it is one that
    [int64] holds; minus zero is none.  The source bounds the double by
    [math.MaxInt64], which as a double is 2^63: at that one double the
    conversion to [int64] is implementation-dependent in Go, and the double
    counts as no integer here. *)
Definition floatToInt (f : float64) : option Z :=
  match f with
  | S754_zero false => Some 0%Z
  | S754_finite _ m e =>
      if ((0 <=? e) || (Zpos m mod 2 ^ (- e) =? 0))%Z
      then match float64_trunc f with
           | Some z => if ((MinInt64 <=? z) && (z <=? MaxInt64))%Z then Some z else None
           | None => None
           end
      else None
  | _ => None
  end.

(** The two representations are the same double. *)
Definition float64_same (a b : float64) : bool :=
  match a, b with
  | S754_zero s, S754_zero t => Bool.eqb s t
  | S754_infinity s, S754_infinity t => Bool.eqb s t
  | S754_nan, S754_nan => true
  | S754_finite s m e, S754_finite t n k => Bool.eqb s t && (m =? n)%positive && (e =? k)%Z
  | _, _ => false
  end.

(** goja's [floatToValue]: a double that is an integer becomes the integer
    value.  Every double [f] of integer value [i] is [float64_of_Z i]; the
    test is written out because [spec_float] also has representations that
    are no double (mantissas that are not normalised), and those stay as they
    are. *)
Definition floatToValue (f : float64) : Value :=
  match floatToInt f with
  | Some i => if float64_same (float64_of_Z i) f then intToValue i else valueFloat f
  | None => valueFloat f
  end.

(** [Runtime.ToValue]. *)
Definition ToValue (x : GoValue) : Value :=
  match x with
  | GoNil => valueNull
  | GoString s => valueString s
  | GoInt i => intToValue i
  | GoFloat f => floatToValue f
  | GoBool b => valueBool b
  | GoFunc name => valueObject (mkObject None (GoFunc name) "function" S754_nan)
  | GoOther repr => valueObject (mkObject None (GoOther repr) "[object Object]" S754_nan)
  end.

(** A finite double outside the range of [int64] is clipped to the nearer
    bound. *)
Definition floatToInteger (f : float64) : Z :=
  match f with
  | S754_nan => 0%Z
  | S754_infinity false => MaxInt64
  | S754_infinity true => MinInt64
  | _ => match float64_trunc f with
         | Some z => if (z <? MinInt64)%Z then MinInt64
                     else if (MaxInt64 <? z)%Z then MaxInt64
                     else z
         | None => 0%Z
         end
  end.

Definition numberToInteger (v : Value) : Z :=
  match v with
  | valueInt i => i
  | valueFloat f => floatToInteger f
  | _ => 0%Z
  end.

Definition numberToFloat (v : Value) : float64 :=
  match v with
  | valueInt i => float64_of_Z i
  | valueFloat f => f
  | _ => S754_nan
  end.

(** [Value.ToInteger]. *)
Definition ToInteger (v : Value) : Z :=
  match v with
  | valueUndefined | valueNull => 0%Z
  | valueBool b => if b then 1%Z else 0%Z
  | valueInt i => i
  | valueFloat f => floatToInteger f
  | valueString s => numberToInteger (StringToNumber s)
  | valueObject (mkObject _ _ _ n) => floatToInteger n
  end.

(** [Value.ToFloat]. *)
Definition ToFloat (v : Value) : float64 :=
  match v with
  | valueUndefined => S754_nan
  | valueNull => S754_zero false
  | valueBool b => if b then float64_of_Z 1 else S754_zero false
  | valueInt i => float64_of_Z i
  | valueFloat f => f
  | valueString s => numberToFloat (StringToNumber s)
  | valueObject (mkObject _ _ _ n) => n
  end.

(** [Value.ToBoolean]. *)
Definition ToBoolean (v : Value) : bool :=
  match v with
  | valueUndefined | valueNull => false
  | valueBool b => b
  | valueInt i => negb (i =? 0)%Z
  | valueFloat (S754_zero _) | valueFloat S754_nan => false
  | valueFloat _ => true
  | valueString s => negb (String.eqb s "")
  | valueObject _ => true
  end.

(** [Value.String]. *)
Definition ValueString (v : Value) : string :=
  match v with
  | valueUndefined => "undefined"
  | valueNull => "null"
  | valueBool b => if b then "true" else "false"
  | valueInt i => pretty i
  | valueFloat f => NumberToString f
  | valueString s => s
  | valueObject (mkObject _ _ s _) => s
  end.

(** [Value.Export]. *)
Definition ValueExport (v : Value) : GoValue :=
  match v with
  | valueUndefined | valueNull => GoNil
  | valueBool b => GoBool b
  | valueInt i => GoInt i
  | valueFloat f => GoFloat f
  | valueString s => GoString s
  | valueObject (mkObject _ e _ _) => e
  end.

(** The export helpers.  A [goja.Value] is an interface, so the argument may
    be the nil interface: [None]. *)
Definition ExportString (val : option Value) : string :=
  match val with
  | None => ""
  | Some v => ValueString v
  end.

Definition ExportInt (val : option Value) : Z :=
  match val with
  | None => 0%Z
  | Some v => ToInteger v
  end.

Definition ExportFloat (val : option Value) : float64 :=
  match val with
  | None => S754_zero false
  | Some v => ToFloat v
  end.

Definition ExportBool (val : option Value) : bool :=
  match val with
  | None => false
  | Some v => ToBoolean v
  end.

Definition Export (val : option Value) : GoValue :=
  match val with
  | None => GoNil
  | Some v => ValueExport v
  end.

(** [fmt]'s [%v] verb. *)
Definition fmt_v (x : GoValue) : string :=
  match x with
  | GoNil => "<nil>"
  | GoString s => s
  | GoInt i => pretty i
  | GoFloat f => FormatFloat f
  | GoBool b => if b then "true" else "false"
  | GoFunc name => name
  | GoOther repr => repr
  end.

(** [error.Error()]. *)
Fixpoint Error (e : error) : string :=
  match e with
  | errorString msg => msg
  | wrapError prefix err => prefix +:+ Error err
  | Exception thrown => ValueString thrown
  | CompilerSyntaxError msg => "SyntaxError: " +:+ msg
  end.

(** [errors.Unwrap], iterated to the innermost error. *)
Fixpoint rootCause (e : error) : error :=
  match e with
  | wrapError _ err => rootCause err
  | _ => e
  end.

End ValueBridge.

(** ** Text of a call: Go quoting and the script's string literals *)

Definition dquote : ascii := ascii_of_N 34.
Definition backslash : ascii := ascii_of_N 92.

Definition lowerhex (d : N) : ascii :=
  match String.get (N.to_nat d) "0123456789abcdef" with
  | Some c => c
  | None => "0"%char
  end.

(** [strconv.IsPrint], on the Latin-1 range. *)
Definition IsPrint (r : N) : bool :=
  ((32 <=? r) && (r <=? 126))%N || ((161 <=? r) && (r <=? 255) && negb (r =? 173))%N.

(** [strconv]'s [appendEscapedRune] with the double quote as delimiter: the
    text that [%q] writes for one character. *)
Definition appendEscapedRune (c : ascii) : string :=
  let r := N_of_ascii c in
  if ((r =? 34) || (r =? 92))%N then String backslash (String c "")
  else if IsPrint r then String c ""
  else
    match r with
    | 7%N => "\a"
    | 8%N => "\b"
    | 12%N => "\f"
    | 10%N => "\n"
    | 13%N => "\r"
    | 9%N => "\t"
    | 11%N => "\v"
    | _ =>
        if ((r <? 32) || (r =? 127))%N
        then "\x" +:+ String (lowerhex (r / 16)) (String (lowerhex (r mod 16)) "")
        else "\u" +:+ String (lowerhex (r / 4096 mod 16)) (String (lowerhex (r / 256 mod 16))
                      (String (lowerhex (r / 16 mod 16)) (String (lowerhex (r mod 16)) "")))
    end.

Fixpoint quoteBody (s : string) : string :=
  match s with
  | EmptyString => ""
  | String c rest => appendEscapedRune c +:+ quoteBody rest
  end.

(** [strconv.Quote], which is what [fmt.Sprintf("%q", s)] returns. *)
Definition Quote (s : string) : string :=
  String dquote (quoteBody s +:+ String dquote "").

(** The code points of a Go string, which are the code units of the script
    string that [ToValue] makes of it. *)
Fixpoint codeUnits (s : string) : list N :=
  match s with
  | EmptyString => []
  | String c rest => N_of_ascii c :: codeUnits rest
  end.

(** ECMAScript string literals: the string value (SV) of a double-quoted
    literal, as a list of UTF-16 code units.  The scanner is a state machine
    over the source characters. *)
Inductive lexState : Type :=
| lsPlain
| lsEscape
| lsHex (remaining : nat) (acc : N)
| lsUnicode
| lsBrace (acc : N)
| lsOctal (remaining : nat) (acc : N)
| lsContinuationCR.

Definition hexDigit (c : ascii) : option N :=
  let r := N_of_ascii c in
  if ((48 <=? r) && (r <=? 57))%N then Some (r - 48)%N
  else if ((97 <=? r) && (r <=? 102))%N then Some (r - 87)%N
  else if ((65 <=? r) && (r <=? 70))%N then Some (r - 55)%N
  else None.

Definition octalDigit (c : ascii) : option N :=
  let r := N_of_ascii c in
  if ((48 <=? r) && (r <=? 55))%N then Some (r - 48)%N else None.

Definition codePointUnits (cp : N) : option (list N) :=
  if (cp <? 65536)%N then Some [cp]
  else if (cp <=? 1114111)%N
       then Some [(55296 + (cp - 65536) / 1024)%N; (56320 + (cp - 65536) mod 1024)%N]
       else None.

Definition emit (u : N) (k : option (list N * string)) : option (list N * string) :=
  match k with
  | Some (us, rest) => Some (u :: us, rest)
  | None => None
  end.

Definition emitAll (us : option (list N)) (k : option (list N * string))
  : option (list N * string) :=
  match us, k with
  | Some l, Some (us', rest) => Some (l ++ us', rest)
  | _, _ => None
  end.

Fixpoint scanString (st : lexState) (s : string) : option (list N * string) :=
  match s with
  | EmptyString => None
  | String c rest =>
      let r := N_of_ascii c in
      let plain :=
        if (r =? 34)%N then Some ([], rest)
        else if (r =? 92)%N then scanString lsEscape rest
        else if ((r =? 10) || (r =? 13))%N then None
        else emit r (scanString lsPlain rest) in
      match st with
      | lsPlain => plain
      | lsEscape =>
          match r with
          | 98%N => emit 8%N (scanString lsPlain rest)
          | 102%N => emit 12%N (scanString lsPlain rest)
          | 110%N => emit 10%N (scanString lsPlain rest)
          | 114%N => emit 13%N (scanString lsPlain rest)
          | 116%N => emit 9%N (scanString lsPlain rest)
          | 118%N => emit 11%N (scanString lsPlain rest)
          | 120%N => scanString (lsHex 2 0) rest
          | 117%N => scanString lsUnicode rest
          | 10%N => scanString lsPlain rest
          | 13%N => scanString lsContinuationCR rest
          | _ =>
              match octalDigit c with
              | Some d => scanString (lsOctal (if (d <=? 3)%N then 2 else 1) d) rest
              | None => emit r (scanString lsPlain rest)
              end
          end
      | lsHex remaining acc =>
          match hexDigit c, remaining with
          | Some d, S O => emit (acc * 16 + d)%N (scanString lsPlain rest)
          | Some d, S k => scanString (lsHex k (acc * 16 + d)%N) rest
          | _, _ => None
          end
      | lsUnicode =>
          if (r =? 123)%N then scanString (lsBrace 0) rest
          else match hexDigit c with
               | Some d => scanString (lsHex 3 d) rest
               | None => None
               end
      | lsBrace acc =>
          if (r =? 125)%N then emitAll (codePointUnits acc) (scanString lsPlain rest)
          else match hexDigit c with
               | Some d => if (acc * 16 + d <=? 1114111)%N
                           then scanString (lsBrace (acc * 16 + d)%N) rest
                           else None
               | None => None
               end
      | lsOctal remaining acc =>
          match octalDigit c, remaining with
          | Some d, S k => scanString (lsOctal k (acc * 8 + d)%N) rest
          | _, _ => emit acc plain
          end
      | lsContinuationCR =>
          if (r =? 10)%N then scanString lsPlain rest else plain
      end
  end.

(** The string value of the literal at the head of [src], and the source
    text left after its closing quote. *)
Definition stringLiteral (src : string) : option (list N * string) :=
  match src with
  | String c rest => if (N_of_ascii c =? 34)%N then scanString lsPlain rest else None
  | EmptyString => None
  end.

(** What the script reads where the Go string has the character [c], a code
    point below 256: the character itself, except that BEL comes back as the
    letter a.  (Beyond this range [%q] and the script differ once more: a code
    point above U+FFFF that is not printable is written as a backslash, the
    letter U and eight hexadecimal digits, which the script reads as those
    nine letters.  Strings here do not reach that range.) *)
Definition readBack (c : ascii) : N :=
  if (N_of_ascii c =? 7)%N then 97%N else N_of_ascii c.

Fixpoint received (s : string) : list N :=
  match s with
  | EmptyString => []
  | String c rest => readBack c :: received rest
  end.

(** ** The engine interface *)

(** The parser and the interpreter.  A runtime is known by its global
    bindings.  [EvalInitializer vm src] is the outcome of a script that
    evaluates [src] as the initializer of a variable declaration inside a
    function body: the value, or the syntax error or exception. *)
Class Engine : Type := {
  Program : Type;
  Compile : string -> Program + error;
  RunProgram : gmap string Value -> Program -> gmap string Value * (Value + error);
  EvalInitializer : gmap string Value -> string -> gmap string Value * (Value + error)
}.

Section EngineOps.
Context `{NumberText} `{Engine}.

(** [Runtime.RunString]: compile, and only then run. *)
Definition RunString (vm : gmap string Value) (src : string)
  : gmap string Value * (Value + error) :=
  match Compile src with
  | inr err => (vm, inr err)
  | inl p => RunProgram vm p
  end.

(** [Runtime.Set]. *)
Definition RuntimeSet (vm : gmap string Value) (name : string) (value : GoValue)
  : gmap string Value :=
  <[name := ToValue value]> vm.

(** The engine reads the text [name] as a reference to the global of that
    name: running it returns the binding and changes nothing. *)
Definition GlobalReference (name : string) : Prop :=
  exists p, Compile name = inl p /\
    forall vm v, vm !! name = Some v -> RunProgram vm p = (vm, inl v).

(** The source text does not parse. *)
Definition Malformed (src : string) : Prop :=
  exists err, Compile src = inr err.

End EngineOps.

(** ** The synchronous Runner *)

Module Runner.
Section Defs.
Context `{NumberText} `{Engine}.

(** [os.ReadFile]: the content of the file at a path, or the error of
    reading it. *)
Variable ReadFile : string -> string + error.

Record Runner : Type := mkRunner {
  vm : gmap string Value;
  globals : gmap string GoValue
}.

Definition New : Runner := {| vm := ∅; globals := ∅ |}.

Definition SetGlobal (r : Runner) (name : string) (value : GoValue) : Runner :=
  {| vm := RuntimeSet (vm r) name value;
     globals := <[name := value]> (globals r) |}.

Definition NewWithGlobals (gs : gmap string GoValue) : Runner :=
  map_fold (fun k v r => SetGlobal r k v) New gs.

Definition LoadScript (r : Runner) (filepath : string) : Runner * option error :=
  match ReadFile filepath with
  | inr err => (r, Some (wrapError "failed to read script file: " err))
  | inl code =>
      match RunString (vm r) code with
      | (vm', inr err) =>
          ({| vm := vm'; globals := globals r |},
           Some (wrapError "failed to execute script: " err))
      | (vm', inl _) => ({| vm := vm'; globals := globals r |}, None)
      end
  end.

Definition LoadScriptString (r : Runner) (code : string) : Runner * option error :=
  match RunString (vm r) code with
  | (vm', inr err) =>
      ({| vm := vm'; globals := globals r |},
       Some (wrapError "failed to execute script: " err))
  | (vm', inl _) => ({| vm := vm'; globals := globals r |}, None)
  end.

(** One argument of [Call], formatted by its dynamic type. *)
Definition formatArg (arg : GoValue) : string :=
  match arg with
  | GoString v => Quote v
  | v => fmt_v v
  end.

(** The loop of [Call] that builds [jsArgs]; [i] is the loop index. *)
Fixpoint formatArgs (jsArgs : string) (i : nat) (args : list GoValue) : string :=
  match args with
  | [] => jsArgs
  | arg :: rest =>
      let jsArgs := if (0 <? i)%nat then jsArgs +:+ ", " else jsArgs in
      formatArgs (jsArgs +:+ formatArg arg) (S i) rest
  end.

(** The invocation expression that [Call] hands to the engine. *)
Definition callScript (functionName : string) (args : list GoValue) : string :=
  functionName +:+ "(" +:+ formatArgs "" 0 args +:+ ")".

Definition Call (r : Runner) (functionName : string) (args : list GoValue)
  : Runner * (Value + error) :=
  match RunString (vm r) (callScript functionName args) with
  | (vm', inr err) =>
      ({| vm := vm'; globals := globals r |},
       inr (wrapError ("failed to call function " +:+ functionName +:+ ": ") err))
  | (vm', inl result) => ({| vm := vm'; globals := globals r |}, inl result)
  end.

Definition Eval (r : Runner) (expression : string) : Runner * (Value + error) :=
  match RunString (vm r) expression with
  | (vm', inr err) =>
      ({| vm := vm'; globals := globals r |},
       inr (wrapError "failed to evaluate expression: " err))
  | (vm', inl result) => ({| vm := vm'; globals := globals r |}, inl result)
  end.

End Defs.
End Runner.

(** ** The cooperative loop

    The task loop is an external collaborator (the event loop that comes with
    the engine); the package only calls it.  Its operations are written here
    as the specification describes them.  [J] is the type of the closures
    handed to the loop. *)
Module eventloop.
Section Defs.
Context {J : Type}.

(** Modelled from the spec: a pending timer of the loop, which is not part of
    this package: a handle, the absolute fire time on the loop's clock, the
    period when it repeats, and the closure to run. *)
Record Timer : Type := mkTimer {
  id : nat;
  due : Z;
  period : option Z;
  job : J
}.

(** Modelled from the spec: the loop, which is not part of this package: one
    engine instance, whether the worker is processing, the closures handed
    over with run-on-loop in submission order, the pending timers in firing
    order, a monotonic logical clock in nanoseconds, and the next handle. *)
Record EventLoop : Type := mkEventLoop {
  vm : gmap string Value;
  running : bool;
  auxJobs : list J;
  timers : list Timer;
  clock : Z;
  nextId : nat
}.

Definition NewEventLoop : EventLoop :=
  {| vm := ∅; running := false; auxJobs := []; timers := []; clock := 0; nextId := 0 |}.

Definition Start (l : EventLoop) : EventLoop :=
  {| vm := vm l; running := true; auxJobs := auxJobs l; timers := timers l;
     clock := clock l; nextId := nextId l |}.

(** The worker no longer takes closures. *)
Definition halt (l : EventLoop) : EventLoop :=
  {| vm := vm l; running := false; auxJobs := auxJobs l; timers := timers l;
     clock := clock l; nextId := nextId l |}.

(** Modelled from the spec: stopping at once, an operation of the loop that is
    not part of this package: what is pending is discarded without being run. *)
Definition StopNoWait (l : EventLoop) : EventLoop :=
  {| vm := vm l; running := false; auxJobs := []; timers := [];
     clock := clock l; nextId := nextId l |}.

Definition RunOnLoop (l : EventLoop) (fn : J) : EventLoop :=
  {| vm := vm l; running := running l; auxJobs := auxJobs l ++ [fn];
     timers := timers l; clock := clock l; nextId := nextId l |}.

(** Modelled from the spec: the timer queue of the loop, which is not part of
    this package: timers are ordered by absolute fire time, ties by submission
    order, so a new timer goes behind every timer that is due no later. *)
Fixpoint insertTimer (t : Timer) (ts : list Timer) : list Timer :=
  match ts with
  | [] => [t]
  | t' :: rest =>
      if (due t <? due t')%Z then t :: ts else t' :: insertTimer t rest
  end.

Definition addTimer (l : EventLoop) (fn : J) (delay : Z) (repeat : bool)
  : EventLoop * nat :=
  let t := {| id := nextId l; due := (clock l + delay)%Z;
              period := if repeat then Some delay else None; job := fn |} in
  ({| vm := vm l; running := running l; auxJobs := auxJobs l;
      timers := insertTimer t (timers l); clock := clock l; nextId := S (nextId l) |},
   nextId l).

Definition SetTimeout (l : EventLoop) (fn : J) (delay : Z) : EventLoop * nat :=
  addTimer l fn delay false.

Definition SetInterval (l : EventLoop) (fn : J) (interval : Z) : EventLoop * nat :=
  addTimer l fn interval true.

Definition clearTimer (l : EventLoop) (t : nat) : EventLoop :=
  {| vm := vm l; running := running l; auxJobs := auxJobs l;
     timers := filter (fun x => id x ≠ t) (timers l);
     clock := clock l; nextId := nextId l |}.

Definition ClearTimeout (l : EventLoop) (t : nat) : EventLoop := clearTimer l t.
Definition ClearInterval (l : EventLoop) (i : nat) : EventLoop := clearTimer l i.

(** Modelled from the spec: the worker of the loop, which is not part of this
    package.  The next closure it takes, and the loop without it: the oldest
    closure handed over with [RunOnLoop], else the first pending timer, to
    whose fire time the clock moves.  An interval goes back into the queue one
    period later. *)
Definition next (l : EventLoop) : option (J * EventLoop) :=
  if running l then
    match auxJobs l with
    | fn :: rest =>
        Some (fn, {| vm := vm l; running := true; auxJobs := rest; timers := timers l;
                     clock := clock l; nextId := nextId l |})
    | [] =>
        match timers l with
        | t :: rest =>
            let now := Z.max (clock l) (due t) in
            let rest' :=
              match period t with
              | Some p => insertTimer {| id := id t; due := (now + p)%Z;
                                         period := Some p; job := job t |} rest
              | None => rest
              end in
            Some (job t, {| vm := vm l; running := true; auxJobs := []; timers := rest';
                            clock := now; nextId := nextId l |})
        | [] => None
        end
    end
  else None.

Definition withVM (l : EventLoop) (vm' : gmap string Value) : EventLoop :=
  {| vm := vm'; running := running l; auxJobs := auxJobs l; timers := timers l;
     clock := clock l; nextId := nextId l |}.

End Defs.
Arguments Timer : clear implicits.
Arguments EventLoop : clear implicits.
End eventloop.

(** ** The EventLoopRunner *)

Module EventLoopRunner.
Section Defs.
Context `{NumberText} `{Engine}.

(** The state of the host program that the closures it submits capture. *)
Context {Host : Type}.

(** A Go function value of type [func(vm)]. *)
Definition Closure : Type := gmap string Value -> Host -> gmap string Value * Host.

(** The [__result] object of [AwaitPromise]'s wrapper script. *)
Record jsResult : Type := mkResult {
  resValue : Value;
  resError : Value;
  resDone : bool
}.

(** The continuations that the wrapper attached with [then] and [catch], and
    in how many further loop iterations the promise settles. *)
Inductive Continuations : Type :=
| attached (ticks : nat) (fulfilled : bool) (v : Value)
| detached.

(** The closures this package hands to the loop:
    - [setupThen fn] is [func(vm) { r.setupVM(vm); fn(vm) }], of [Run],
      [RunOnLoop], [SetTimeout] and [SetInterval];
    - [runCode code] is [func(vm) { r.setupVM(vm); result, runErr =
      vm.RunString(code) }], of [RunAsync] and [RunAsyncWithTimeout];
    - [awaitCode code] is the closure of [AwaitPromise];
    - [checkResult obj k] is [func(vm) { checkResult() }], with the [__result]
      object it reads and the continuations that have not run yet. *)
Inductive Job : Type :=
| setupThen (fn : Closure)
| runCode (code : string)
| awaitCode (code : string)
| checkResult (obj : jsResult) (k : Continuations).

Record EventLoopRunner : Type := mkEventLoopRunner {
  loop : eventloop.EventLoop Job;
  globals : gmap string GoValue;
  webAccessEnabled : bool
}.

(** A bridge, the host state, and the variables that the closures of a
    blocking call share with it: [resolvedValue], [promiseErr] and the [done]
    channel of [AwaitPromise], [result] and [runErr] of [RunAsync]. *)
Record World : Type := mkWorld {
  runner : EventLoopRunner;
  host : Host;
  resolvedValue : GoValue;
  promiseErr : option error;
  done : bool;
  result : option Value;
  runErr : option error
}.

Definition NewEventLoopRunner (webAccess : bool) : EventLoopRunner :=
  {| loop := eventloop.NewEventLoop; globals := ∅; webAccessEnabled := webAccess |}.

Definition NewEventLoopRunnerWithGlobals (gs : gmap string GoValue) (webAccess : bool)
  : EventLoopRunner :=
  let r := NewEventLoopRunner webAccess in
  {| loop := loop r;
     globals := map_fold (fun k v m => <[k := v]> m) (globals r) gs;
     webAccessEnabled := webAccessEnabled r |}.

Definition withLoop (r : EventLoopRunner) (l : eventloop.EventLoop Job) : EventLoopRunner :=
  {| loop := l; globals := globals r; webAccessEnabled := webAccessEnabled r |}.

Definition Start (r : EventLoopRunner) : EventLoopRunner :=
  withLoop r (eventloop.Start (loop r)).

Definition StopNoWait (r : EventLoopRunner) : EventLoopRunner :=
  withLoop r (eventloop.StopNoWait (loop r)).

Definition SetGlobal (r : EventLoopRunner) (name : string) (value : GoValue)
  : EventLoopRunner :=
  {| loop := loop r; globals := <[name := value]> (globals r);
     webAccessEnabled := webAccessEnabled r |}.

Definition installFetchGlobals (vm : gmap string Value) : gmap string Value :=
  RuntimeSet (RuntimeSet vm "fetchText" (GoFunc "fetchText")) "fetchJSON" (GoFunc "fetchJSON").

Definition setupVM (r : EventLoopRunner) (vm : gmap string Value) : gmap string Value :=
  let vm := map_fold (fun name value vm => RuntimeSet vm name value) vm (globals r) in
  if webAccessEnabled r then installFetchGlobals vm else vm.

(** The name is one of the two that [installFetchGlobals] binds, and web
    access is enabled. *)
Definition shadowedByFetch (r : EventLoopRunner) (name : string) : bool :=
  webAccessEnabled r && (String.eqb name "fetchText" || String.eqb name "fetchJSON").

Definition SetTimeout (r : EventLoopRunner) (fn : Closure) (delay : Z)
  : EventLoopRunner * nat :=
  let (l, t) := eventloop.SetTimeout (loop r) (setupThen fn) delay in (withLoop r l, t).

Definition SetInterval (r : EventLoopRunner) (fn : Closure) (interval : Z)
  : EventLoopRunner * nat :=
  let (l, i) := eventloop.SetInterval (loop r) (setupThen fn) interval in (withLoop r l, i).

Definition ClearInterval (r : EventLoopRunner) (i : nat) : EventLoopRunner :=
  withLoop r (eventloop.ClearInterval (loop r) i).

Definition ClearTimeout (r : EventLoopRunner) (t : nat) : EventLoopRunner :=
  withLoop r (eventloop.ClearTimeout (loop r) t).

Definition RunOnLoop (r : EventLoopRunner) (fn : Closure) : EventLoopRunner :=
  withLoop r (eventloop.RunOnLoop (loop r) (setupThen fn)).

(** *** The wrapper script of AwaitPromise *)

(** [__promise && typeof __promise.then === 'function'] *)
Definition thenableOf (p : Value) : option Thenable :=
  match p with
  | valueObject (mkObject th _ _ _) => th
  | _ => None
  end.

Definition initialResult : jsResult :=
  {| resValue := valueUndefined; resError := valueUndefined; resDone := false |}.

(** One further iteration of the loop, seen from the [__result] object: a
    promise that is due settles and the continuation for its outcome runs. *)
Definition tick (s : jsResult * Continuations) : jsResult * Continuations :=
  match s with
  | (obj, attached O true v) =>
      ({| resValue := v; resError := resError obj; resDone := true |}, detached)
  | (obj, attached O false e) =>
      ({| resValue := resValue obj; resError := e; resDone := true |}, detached)
  | (obj, attached (S n) f v) => (obj, attached n f v)
  | (obj, detached) => (obj, detached)
  end.

(** [vm.RunString(wrappedCode)]: the function of the wrapper evaluates [code]
    into [__promise], attaches the continuations when that is promise-like
    and fills [__result] itself otherwise, and returns [__result]. *)
Definition runWrapped (vm : gmap string Value) (code : string)
  : gmap string Value * (jsResult * Continuations + error) :=
  match EvalInitializer vm code with
  | (vm', inr err) => (vm', inr err)
  | (vm', inl p) =>
      match thenableOf p with
      | Some (thenThrows exc) => (vm', inr (Exception exc))
      | Some (settles n f v) => (vm', inl (tick (initialResult, attached n f v)))
      | Some neverSettles => (vm', inl (initialResult, detached))
      | None =>
          (vm', inl ({| resValue := p; resError := valueUndefined; resDone := true |},
                     detached))
      end
  end.

(** *** Closures at work *)

Definition setLoop (w : World) (l : eventloop.EventLoop Job) : World :=
  {| runner := withLoop (runner w) l; host := host w;
     resolvedValue := resolvedValue w; promiseErr := promiseErr w; done := done w;
     result := result w; runErr := runErr w |}.

Definition withRunner (w : World) (r : EventLoopRunner) : World :=
  {| runner := r; host := host w;
     resolvedValue := resolvedValue w; promiseErr := promiseErr w; done := done w;
     result := result w; runErr := runErr w |}.

Definition setVM (w : World) (vm : gmap string Value) : World :=
  setLoop w (eventloop.withVM (loop (runner w)) vm).

Definition isUndefinedOrNull (v : Value) : bool :=
  match v with
  | valueUndefined | valueNull => true
  | _ => false
  end.

(** The worker runs one closure. *)
Definition execJob (w : World) (j : Job) : World :=
  let r := runner w in
  match j with
  | setupThen fn =>
      let vm := setupVM r (eventloop.vm (loop r)) in
      let (vm', host') := fn vm (host w) in
      let w := setVM w vm' in
      {| runner := runner w; host := host';
         resolvedValue := resolvedValue w; promiseErr := promiseErr w; done := done w;
         result := result w; runErr := runErr w |}
  | runCode code =>
      let vm := setupVM r (eventloop.vm (loop r)) in
      let (vm', res) := RunString vm code in
      let w := setVM w vm' in
      {| runner := runner w; host := host w;
         resolvedValue := resolvedValue w; promiseErr := promiseErr w; done := done w;
         result := match res with inl v => Some v | inr _ => None end;
         runErr := match res with inl _ => None | inr err => Some err end |}
  | awaitCode code =>
      let vm := setupVM r (eventloop.vm (loop r)) in
      match runWrapped vm code with
      | (vm', inr err) =>
          let w := setVM w vm' in
          {| runner := runner w; host := host w;
             resolvedValue := resolvedValue w; promiseErr := Some err; done := true;
             result := result w; runErr := runErr w |}
      | (vm', inl (obj, k)) =>
          let w := setVM w vm' in
          setLoop w (eventloop.RunOnLoop (loop (runner w)) (checkResult obj k))
      end
  | checkResult obj k =>
      if resDone obj then
        if negb (isUndefinedOrNull (resError obj)) then
          {| runner := runner w; host := host w;
             resolvedValue := resolvedValue w;
             promiseErr :=
               Some (errorString ("promise rejected: " +:+ fmt_v (ValueExport (resError obj))));
             done := true;
             result := result w; runErr := runErr w |}
        else
          {| runner := runner w; host := host w;
             resolvedValue := ValueExport (resValue obj);
             promiseErr := promiseErr w; done := true;
             result := result w; runErr := runErr w |}
      else
        let (obj', k') := tick (obj, k) in
        setLoop w (eventloop.RunOnLoop (loop r) (checkResult obj' k'))
  end.

(** The worker takes closures until none is left; [None] when [fuel] closures
    were not enough. *)
Fixpoint pump (fuel : nat) (w : World) : option World :=
  match eventloop.next (loop (runner w)) with
  | None => Some w
  | Some (j, l) =>
      match fuel with
      | O => None
      | S fuel' => pump fuel' (execJob (setLoop w l) j)
      end
  end.

(** How a blocking call ends for its caller. *)
Inductive Outcome (A : Type) : Type :=
| Returned (a : A) (w : World)
| Blocked (w : World)
| Panicked
| OutOfFuel.
Arguments Returned {A} a w.
Arguments Blocked {A} w.
Arguments Panicked {A}.
Arguments OutOfFuel {A}.

(** Modelled from the spec: [Stop] is [r.loop.Stop()], and the draining is
    the loop's, which is not part of this package: the pending work is run to
    the end, then the loop stops. *)
Definition Stop (fuel : nat) (w : World) : Outcome unit :=
  match pump fuel w with
  | Some w' => Returned tt (setLoop w' (eventloop.halt (loop (runner w'))))
  | None => OutOfFuel
  end.

(** [loop.Run(fn)]: marks the loop as running, calls [fn] at once on the
    calling thread, before anything that was queued, then runs the loop until
    nothing is pending, and stops it.  It must not be used on a started
    loop. *)
Definition loopRun (fuel : nat) (w : World) (fn : Job) : Outcome unit :=
  let l := loop (runner w) in
  if eventloop.running l then Panicked
  else
    match pump fuel (execJob (setLoop w (eventloop.Start l)) fn) with
    | Some w' => Returned tt (setLoop w' (eventloop.halt (loop (runner w'))))
    | None => OutOfFuel
    end.

Definition Run (fuel : nat) (w : World) (fn : Closure) : Outcome unit :=
  loopRun fuel w (setupThen fn).

Definition clearRun (w : World) : World :=
  {| runner := runner w; host := host w;
     resolvedValue := resolvedValue w; promiseErr := promiseErr w; done := done w;
     result := None; runErr := None |}.

Definition RunAsync (fuel : nat) (w : World) (code : string)
  : Outcome (option Value * option error) :=
  match loopRun fuel (clearRun w) (runCode code) with
  | Returned _ w' => Returned (result w', runErr w') w'
  | Blocked w' => Blocked w'
  | Panicked => Panicked
  | OutOfFuel => OutOfFuel
  end.

(** The caller of [AwaitPromise] waits on [done] while the worker runs: it
    returns once [done] is closed, and it waits forever when the worker has
    nothing to run, or does not run, before that. *)
Fixpoint awaitDone (fuel : nat) (w : World) : Outcome (GoValue * option error) :=
  if done w then Returned (resolvedValue w, promiseErr w) w
  else
    match eventloop.next (loop (runner w)) with
    | None => Blocked w
    | Some (j, l) =>
        match fuel with
        | O => OutOfFuel
        | S fuel' => awaitDone fuel' (execJob (setLoop w l) j)
        end
    end.

Definition clearAwait (w : World) : World :=
  {| runner := runner w; host := host w;
     resolvedValue := GoNil; promiseErr := None; done := false;
     result := result w; runErr := runErr w |}.

Definition AwaitPromise (fuel : nat) (w : World) (code : string)
  : Outcome (GoValue * option error) :=
  let w := clearAwait w in
  awaitDone fuel (setLoop w (eventloop.RunOnLoop (loop (runner w)) (awaitCode code))).

End Defs.
Arguments Returned {Host A} a w.
Arguments Blocked {Host A} w.
Arguments Panicked {Host A}.
Arguments OutOfFuel {Host A}.
End EventLoopRunner.

(** ** A sample engine

    A table of a few source texts with the outcome the engine has for them,
    to run the package on concrete inputs.  Texts outside the table are
    answered with an error that says so. *)
Module Sample.

(** Number syntax is not exercised by the examples. *)
Definition numberText : NumberText :=
  {| StringToNumber := fun _ => valueFloat S754_nan;
     NumberToString := fun _ => "NaN";
     FormatFloat := fun _ => "NaN" |}.

Inductive program : Type :=
| refGlobal (name : string)
| literalInt (i : Z)
| declareThenRead (name : string) (i : Z)
| notCovered.

Definition globalNames : list string := ["x"; "myValue"; "fetchText"].

Definition compile (src : string) : program + error :=
  if bool_decide (src ∈ globalNames) then inl (refGlobal src)
  else if String.eqb src "42" then inl (literalInt 42)
  else if String.eqb src "var a = 42; a" then inl (declareThenRead "a" 42)
  else if String.eqb src "var x = ;" then inr (CompilerSyntaxError "Unexpected token ;")
  else inl notCovered.

Definition runProgram (vm : gmap string Value) (p : program)
  : gmap string Value * (Value + error) :=
  match p with
  | refGlobal name =>
      match vm !! name with
      | Some v => (vm, inl v)
      | None => (vm, inr (Exception (valueString ("ReferenceError: " +:+ name +:+ " is not defined"))))
      end
  | literalInt i => (vm, inl (valueInt i))
  | declareThenRead name i => (<[name := valueInt i]> vm, inl (valueInt i))
  | notCovered => (vm, inr (errorString "text outside the sample table"))
  end.

(** A promise object that settles [ticks] loop iterations after the script
    that made it has ended. *)
Definition promise (ticks : nat) (fulfilled : bool) (v : Value) : Value :=
  valueObject (mkObject (Some (settles ticks fulfilled v)) (GoOther "Promise")
                        "[object Promise]" S754_nan).

Definition evalInitializer (vm : gmap string Value) (src : string)
  : gmap string Value * (Value + error) :=
  if String.eqb src "42" then (vm, inl (valueInt 42))
  else if String.eqb src "Promise.reject()" then (vm, inl (promise 0 false valueUndefined))
  else if String.eqb src "Promise.reject(null)" then (vm, inl (promise 0 false valueNull))
  else if String.eqb src "Promise.reject('boom')"
       then (vm, inl (promise 0 false (valueString "boom")))
  else if String.eqb src "Promise.resolve(7)" then (vm, inl (promise 0 true (valueInt 7)))
  else if String.eqb src "var a = 42; a"
       then (vm, inr (CompilerSyntaxError "Unexpected token var"))
  else (vm, inr (errorString "text outside the sample table")).

Definition engine : Engine :=
  {| Program := program; Compile := compile; RunProgram := runProgram;
     EvalInitializer := evalInitializer |}.

(** The character BEL. *)
Definition bell : string := String (ascii_of_N 7) "".

(** A bridge that was created and never started, in a host program whose
    state is [h]. *)
Definition created {Host : Type} (h : Host) (webAccess : bool) : EventLoopRunner.World :=
  {| EventLoopRunner.runner := EventLoopRunner.NewEventLoopRunner webAccess;
     EventLoopRunner.host := h;
     EventLoopRunner.resolvedValue := GoNil;
     EventLoopRunner.promiseErr := None;
     EventLoopRunner.done := false;
     EventLoopRunner.result := None;
     EventLoopRunner.runErr := None |}.

(** The same bridge after [Start]. *)
Definition started {Host : Type} (h : Host) (webAccess : bool) : EventLoopRunner.World :=
  EventLoopRunner.setLoop (created h webAccess)
    (eventloop.Start (EventLoopRunner.loop (EventLoopRunner.runner (created h webAccess)))).

(** The closure that looks a global up and keeps what it finds. *)
Definition probe (name : string) : EventLoopRunner.Closure (Host := option Value) :=
  fun vm _ => (vm, vm !! name).

(** A created bridge with web access enabled and one global set. *)
Definition webBridge (name : string) (value : GoValue)
  : EventLoopRunner.World (Host := option Value) :=
  EventLoopRunner.withRunner (created None true)
    (EventLoopRunner.SetGlobal (EventLoopRunner.runner (created None true)) name value).

(** A bridge that was started and then stopped at once. *)
Definition stopped : EventLoopRunner.World (Host := unit) :=
  EventLoopRunner.withRunner (started tt false)
    (EventLoopRunner.StopNoWait (EventLoopRunner.runner (started tt false))).

End Sample.

(** ** The host program of the multiple-timeouts test *)

Module MultipleTimeouts.

(** The closure of the test: [order = append(order, k)]. *)
Definition appendOrder (k : nat) : EventLoopRunner.Closure (Host := list nat) :=
  fun vm order => (vm, order ++ [k]).

(** One call of [SetTimeout]: its position among the calls, the number its
    closure appends, and its delay. *)
Record Submission : Type := mkSubmission {
  index : nat;
  tag : nat;
  delay : Z
}.

Fixpoint numbered (i : nat) (l : list (nat * Z)) : list Submission :=
  match l with
  | [] => []
  | (k, d) :: rest => {| index := i; tag := k; delay := d |} :: numbered (S i) rest
  end.

(** The host calls [SetTimeout] for each submission in turn. *)
Fixpoint submit (r : EventLoopRunner.EventLoopRunner) (subs : list Submission)
  : EventLoopRunner.EventLoopRunner :=
  match subs with
  | [] => r
  | s :: rest =>
      submit (fst (EventLoopRunner.SetTimeout r (appendOrder (tag s)) (delay s))) rest
  end.



Definition ms : Z := 1000000.

(** 150ms, 50ms and 100ms, appending 3, 1 and 2. *)
Definition scenario : list (nat * Z) :=
  [(3%nat, 150 * ms); (1%nat, 50 * ms); (2%nat, 100 * ms)]%Z.

End MultipleTimeouts.

(** ** Runner options and web access *)

Module http.
(** An [http.Client], known by its [Timeout] and a name for its transport. *)
Record Client : Type := mkClient {
  Timeout : Z;
  Transport : string
}.
End http.

Module WebAccess.
Section Defs.
Context `{NumberText} `{Engine}.

Record WebAccessConfig : Type := mkWebAccessConfig {
  Client : option http.Client;
  Timeout : Z
}.

(** The struct [Runner] with all its fields: [core] holds [vm] and
    [globals]. *)
Record Runner : Type := mkRunner {
  core : Runner.Runner;
  httpClient : option http.Client;
  webAccessEnabled : bool;
  webAccessTimeout : Z
}.

(** An [Option] is a function on the runner, or nil. *)
Definition Option : Type := option (Runner -> Runner).

(** [10 * time.Second], in nanoseconds. *)
Definition defaultWebAccessTimeout : Z := 10 * 1000000000.

Definition WithWebAccess (cfg : option WebAccessConfig) : Option :=
  Some (fun r =>
    let r := {| core := core r; httpClient := httpClient r;
                webAccessEnabled := true; webAccessTimeout := webAccessTimeout r |} in
    match cfg with
    | None => r
    | Some cfg =>
        let r := match Client cfg with
                 | Some c => {| core := core r; httpClient := Some c;
                                webAccessEnabled := webAccessEnabled r;
                                webAccessTimeout := webAccessTimeout r |}
                 | None => r
                 end in
        if (0 <? Timeout cfg)%Z
        then {| core := core r; httpClient := httpClient r;
                webAccessEnabled := webAccessEnabled r; webAccessTimeout := Timeout cfg |}
        else r
    end).

Definition SetGlobal (r : Runner) (name : string) (value : GoValue) : Runner :=
  {| core := Runner.SetGlobal (core r) name value; httpClient := httpClient r;
     webAccessEnabled := webAccessEnabled r; webAccessTimeout := webAccessTimeout r |}.

Definition installFetchGlobals (r : Runner) : Runner :=
  SetGlobal (SetGlobal r "fetchText" (GoFunc "fetchText")) "fetchJSON" (GoFunc "fetchJSON").

Definition initWebAccess (r : Runner) : Runner :=
  let r := if (webAccessTimeout r <=? 0)%Z
           then {| core := core r; httpClient := httpClient r;
                   webAccessEnabled := webAccessEnabled r;
                   webAccessTimeout := defaultWebAccessTimeout |}
           else r in
  let r := match httpClient r with
           | None => {| core := core r;
                        httpClient := Some {| http.Timeout := webAccessTimeout r;
                                              http.Transport := "" |};
                        webAccessEnabled := webAccessEnabled r;
                        webAccessTimeout := webAccessTimeout r |}
           | Some _ => r
           end in
  installFetchGlobals r.

(** The loop of [applyOptions]: every option that is not nil is applied. *)
Definition applyEach (r : Runner) (opts : list Option) : Runner :=
  fold_left (fun r opt => match opt with
                          | None => r
                          | Some f => f r
                          end) opts r.

Definition applyOptions (r : Runner) (opts : list Option) : Runner :=
  let r := applyEach r opts in
  if webAccessEnabled r then initWebAccess r else r.

Definition EnableWebAccess (r : Runner) (cfg : option WebAccessConfig) : Runner :=
  let r := match WithWebAccess cfg with
           | Some f => f r
           | None => r
           end in
  let r := {| core := core r; httpClient := httpClient r;
              webAccessEnabled := true; webAccessTimeout := webAccessTimeout r |} in
  initWebAccess r.

Definition New (opts : list Option) : Runner :=
  applyOptions {| core := Runner.New; httpClient := None;
                  webAccessEnabled := false; webAccessTimeout := 0 |} opts.

Definition NewWithGlobals (gs : gmap string GoValue) (opts : list Option) : Runner :=
  map_fold (fun k v r => SetGlobal r k v) (New opts) gs.

(** [LoadScriptString] and [Eval] on the whole struct: they touch [vm] only. *)
Definition withCore (r : Runner) (c : Runner.Runner) : Runner :=
  {| core := c; httpClient := httpClient r;
     webAccessEnabled := webAccessEnabled r; webAccessTimeout := webAccessTimeout r |}.

Definition LoadScriptString (r : Runner) (code : string) : Runner * option error :=
  let (c, err) := Runner.LoadScriptString (core r) code in (withCore r c, err).

Definition Eval (r : Runner) (expression : string) : Runner * (Value + error) :=
  let (c, result) := Runner.Eval (core r) expression in (withCore r c, result).

End Defs.
End WebAccess.

(** ** More sample texts *)
Module MoreSamples.

(** An object whose [then] is a function that returns nothing: calling
    [catch] on what it returned throws a TypeError. *)
Definition bareThenable : Value :=
  valueObject (mkObject (Some (thenThrows (valueString "TypeError: Cannot read property 'catch' of undefined")))
                        (GoOther "map[]") "[object Object]" S754_nan).

(** A promise whose executor never calls resolve or reject. *)
Definition foreverPending : Value :=
  valueObject (mkObject (Some neverSettles) (GoOther "Promise") "[object Promise]" S754_nan).

Definition evalInitializer (vm : gmap string Value) (src : string)
  : gmap string Value * (Value + error) :=
  if String.eqb src "({then: function() {}})" then (vm, inl bareThenable)
  else if String.eqb src "new Promise(function() {})" then (vm, inl foreverPending)
  else if String.eqb src "new Promise(function(resolve) { setTimeout(function() { resolve('hello'); }, 50); })"
       then (vm, inl (Sample.promise 3 true (valueString "hello")))
  else if String.eqb src "new Promise(function(resolve, reject) { setTimeout(function() { reject('error message'); }, 50); })"
       then (vm, inl (Sample.promise 3 false (valueString "error message")))
  else if String.eqb src "throw"
       then (vm, inr (CompilerSyntaxError "Unexpected token throw"))
  else Sample.evalInitializer vm src.

Definition engine : Engine :=
  {| Program := Sample.program; Compile := Sample.compile; RunProgram := Sample.runProgram;
     EvalInitializer := evalInitializer |}.

End MoreSamples.

(** ** Blank text *)

(** [unicode.IsSpace], on the Latin-1 range: tab, line feed, vertical tab,
    form feed, carriage return, space, NEL and the no-break space. *)
Definition IsSpace (c : ascii) : bool :=
  match N_of_ascii c with
  | 9%N | 10%N | 11%N | 12%N | 13%N | 32%N | 133%N | 160%N => true
  | _ => false
  end.

Fixpoint TrimLeftSpace (s : string) : string :=
  match s with
  | EmptyString => ""
  | String c rest => if IsSpace c then TrimLeftSpace rest else s
  end.

Fixpoint TrimRightSpace (s : string) : string :=
  match s with
  | EmptyString => ""
  | String c rest =>
      match TrimRightSpace rest with
      | EmptyString => if IsSpace c then "" else String c ""
      | rest' => String c rest'
      end
  end.

(** [strings.TrimSpace]: the text without its leading and trailing white
    space. *)
Definition TrimSpace (s : string) : string := TrimRightSpace (TrimLeftSpace s).

(** ** The React bundler (package [bundler]) *)

Module bundler.

Record ReactOptions : Type := mkReactOptions {
  ReactVersion : string;
  SSREntry : string;
  ClientEntry : string
}.

Record ReactBundles : Type := mkReactBundles {
  SSR : string;
  Client : string
}.

Definition defaultReactVersion : string := "18.3.1".

(** [api.Platform]. *)
Inductive Platform : Type := PlatformBrowser | PlatformNode.

(** The resolver: the version it aliases React to, and its cache of loaded
    modules by URL.  Its HTTP client is fixed and left out. *)
Record remoteResolver : Type := mkRemoteResolver {
  cache : gmap string string;
  reactVersion : string
}.

Definition newRemoteResolver (reactVersion : string) : remoteResolver :=
  {| cache := ∅; reactVersion := reactVersion |}.

(** The fields of [api.BuildOptions] that differ between the two builds;
    the others are constants of [buildBundle]. *)
Record BuildOptions : Type := mkBuildOptions {
  Platform_ : Platform;  (* the field [Platform] *)
  Contents : string;
  Sourcefile : string
}.

(** What [buildBundle] reads of an [api.BuildResult]: the text of each
    error message and the contents of each output file. *)
Record BuildResult : Type := mkBuildResult {
  Errors : list string;
  OutputFiles : list string
}.

(** esbuild's [api.Build], with the resolver whose plugin it is given: it
    returns the build result, and the resolver as the plugin's handlers left
    it. *)
Class Esbuild : Type := {
  Build : BuildOptions -> remoteResolver -> BuildResult * remoteResolver
}.

(** What the [OnLoad] handler reads of an HTTP response: the status code,
    and the body or the error of reading it. *)
Record Response : Type := mkResponse {
  StatusCode : Z;
  Body : string + error
}.

(** The [OnLoad] handler of the plugin, for the path [path]; [get] is
    [client.Get] at the time of the call. *)
Definition onLoad (get : string -> Response + error) (r : remoteResolver) (path : string)
  : remoteResolver * (string + error) :=
  match cache r !! path with
  | Some text => (r, inl text)
  | None =>
      match get path with
      | inr err => (r, inr err)
      | inl resp =>
          if (400 <=? StatusCode resp)%Z
          then (r, inr (errorString ("fetch " +:+ path +:+ " failed with "
                                       +:+ pretty (StatusCode resp))))
          else
            match Body resp with
            | inr err => (r, inr err)
            | inl text =>
                ({| cache := <[path := text]> (cache r); reactVersion := reactVersion r |},
                 inl text)
            end
      end
  end.

Section Defs.
Context `{Esbuild}.

Definition buildBundle (entry sourceFile : string) (platform : Platform)
           (resolver : remoteResolver) : remoteResolver * (string + error) :=
  let (result, resolver) :=
    Build {| Platform_ := platform; Contents := entry; Sourcefile := sourceFile |} resolver in
  match Errors result with
  | e :: _ => (resolver, inr (errorString ("esbuild error: " +:+ e)))
  | [] =>
      match OutputFiles result with
      | [] => (resolver, inr (errorString "esbuild produced no output"))
      | f :: _ => (resolver, inl f)
      end
  end.

Definition BuildReactBundles (opts : ReactOptions) : ReactBundles + error :=
  if String.eqb (TrimSpace (SSREntry opts)) ""
  then inr (errorString "ssr entry is required")
  else if String.eqb (TrimSpace (ClientEntry opts)) ""
  then inr (errorString "client entry is required")
  else
    let reactVersion :=
      if String.eqb (ReactVersion opts) "" then defaultReactVersion else ReactVersion opts in
    let resolver := newRemoteResolver reactVersion in
    match buildBundle (SSREntry opts) "app-ssr.tsx" PlatformNode resolver with
    | (_, inr err) => inr (wrapError "bundle ssr: " err)
    | (resolver, inl ssr) =>
        match buildBundle (ClientEntry opts) "app-client.tsx" PlatformBrowser resolver with
        | (_, inr err) => inr (wrapError "bundle client: " err)
        | (_, inl client) => inl {| SSR := ssr; Client := client |}
        end
    end.

End Defs.
End bundler.

(** ** The React application (react_app.go) *)

Module ReactApp.
Section Defs.
Context `{NumberText} `{Engine} `{bundler.Esbuild}.

Record ReactAppOptions : Type := mkReactAppOptions {
  Runner : option WebAccess.Runner;
  RunnerOptions : list WebAccess.Option;
  Polyfills : list string;
  SSREntry : string;
  ClientEntry : string;
  ReactVersion : string
}.

(** The methods [ClientBundle] and [Runner] are the two projections. *)
Record ReactApp : Type := mkReactApp {
  runner : WebAccess.Runner;
  clientBundle : string
}.

(** The loop of [NewReactApp] over the polyfills; [idx] is the loop index. *)
Fixpoint loadPolyfills (r : WebAccess.Runner) (idx : nat) (scripts : list string)
  : WebAccess.Runner * option error :=
  match scripts with
  | [] => (r, None)
  | script :: rest =>
      if String.eqb (TrimSpace script) "" then loadPolyfills r (S idx) rest
      else
        match WebAccess.LoadScriptString r script with
        | (r, Some err) =>
            (r, Some (wrapError ("load polyfill[" +:+ pretty idx +:+ "]: ") err))
        | (r, None) => loadPolyfills r (S idx) rest
        end
  end.

Definition assertGlobalExists (r : WebAccess.Runner) (name : string)
  : WebAccess.Runner * option error :=
  match WebAccess.Eval r ("typeof this['" +:+ name +:+ "'] !== 'undefined'") with
  | (r, inr err) => (r, Some err)
  | (r, inl result) =>
      if ExportBool (Some result) then (r, None)
      else (r, Some (errorString ("global " +:+ name +:+ " is undefined")))
  end.

(** [NewReactApp]: its result, and beside it the runner it worked on, as
    the call left it ([None] when the call ended before it took a runner). *)
Definition NewReactApp (opts : ReactAppOptions)
  : option WebAccess.Runner * (ReactApp + error) :=
  if String.eqb (TrimSpace (SSREntry opts)) ""
  then (None, inr (errorString "react ssr entry is required"))
  else if String.eqb (TrimSpace (ClientEntry opts)) ""
  then (None, inr (errorString "react client entry is required"))
  else
    let r := match Runner opts with
             | Some r => r
             | None => WebAccess.New (RunnerOptions opts)
             end in
    match loadPolyfills r 0 (Polyfills opts) with
    | (r, Some err) => (Some r, inr err)
    | (r, None) =>
        match bundler.BuildReactBundles
                {| bundler.ReactVersion := ReactVersion opts;
                   bundler.SSREntry := SSREntry opts;
                   bundler.ClientEntry := ClientEntry opts |} with
        | inr err => (Some r, inr err)
        | inl bundles =>
            match WebAccess.LoadScriptString r (bundler.SSR bundles) with
            | (r, Some err) => (Some r, inr (wrapError "load SSR bundle: " err))
            | (r, None) =>
                match assertGlobalExists r "renderApp" with
                | (r, Some err) => (Some r, inr (wrapError "renderApp not defined: " err))
                | (r, None) =>
                    (Some r, inl {| runner := r; clientBundle := bundler.Client bundles |})
                end
            end
        end
    end.

(** [Render]; [props] is the map, as the value [SetGlobal] receives. *)
Definition Render (ra : ReactApp) (props : GoValue) : ReactApp * (string * option error) :=
  let r := WebAccess.SetGlobal (runner ra) "SERVER_PROPS" props in
  match WebAccess.Eval r "renderApp(SERVER_PROPS)" with
  | (r, inr err) =>
      ({| runner := r; clientBundle := clientBundle ra |},
       ("", Some (wrapError "renderApp failed: " err)))
  | (r, inl markup) =>
      ({| runner := r; clientBundle := clientBundle ra |},
       (ExportString (Some markup), None))
  end.

End Defs.
End ReactApp.

(** ** A sample bundler *)

Module SampleBundler.

(** A bundler that reports no error and gives the entry back as the one
    output file, except for the entry [import], on which it reports that
    nothing could be resolved. *)
Definition build (opts : bundler.BuildOptions) (resolver : bundler.remoteResolver)
  : bundler.BuildResult * bundler.remoteResolver :=
  if String.eqb (bundler.Contents opts) "import"
  then ({| bundler.Errors := ["unable to resolve"]; bundler.OutputFiles := [] |}, resolver)
  else ({| bundler.Errors := []; bundler.OutputFiles := [bundler.Contents opts] |}, resolver).

Definition esbuild : bundler.Esbuild := {| bundler.Build := build |}.

(** A network that answers every URL with status 200 and the body [body]. *)
Definition serves (body : string) (url : string) : bundler.Response + error :=
  inl {| bundler.StatusCode := 200; bundler.Body := inl body |}.

(** A network that answers every URL with status 404. *)
Definition missing (url : string) : bundler.Response + error :=
  inl {| bundler.StatusCode := 404; bundler.Body := inl "not found" |}.

(** Options with a blank polyfill before one that does not parse. *)
Definition brokenPolyfill : ReactApp.ReactAppOptions :=
  {| ReactApp.Runner := None;
     ReactApp.RunnerOptions := [];
     ReactApp.Polyfills := [" "; "var x = ;"; "42"];
     ReactApp.SSREntry := "server";
     ReactApp.ClientEntry := "client";
     ReactApp.ReactVersion := "" |}.

(** Options whose server entry is two spaces. *)
Definition blankServerEntry : ReactApp.ReactAppOptions :=
  {| ReactApp.Runner := None;
     ReactApp.RunnerOptions := [];
     ReactApp.Polyfills := ["var x = ;"];
     ReactApp.SSREntry := "  ";
     ReactApp.ClientEntry := "client";
     ReactApp.ReactVersion := "" |}.

End SampleBundler.

(** * Properties *)

(** ** The value bridge *)

Section ValueBridgeFacts.
Context `{NumberText}.

(** C7. The export helpers are total on the nil value and do not fail:
    [ExportString(nil)] is the empty string, [ExportInt(nil)] is 0,
    [ExportFloat(nil)] is 0, [ExportBool(nil)] is false and [Export(nil)]
    is nil. *)
Theorem export_helpers_on_nil :
  ExportString None = "" /\
  ExportInt None = 0%Z /\
  ExportFloat None = S754_zero false /\
  ExportBool None = false /\
  Export None = GoNil.
Proof. repeat split. Qed.








End ValueBridgeFacts.

(** ** Quoted arguments *)

Section QuoteFacts.
Context `{NumberText}.

Lemma append_assoc (a b c : string) : (a +:+ b) +:+ c = a +:+ (b +:+ c).
Proof.
  induction a as [|x a IH]; [reflexivity|].
  change (String x ((a +:+ b) +:+ c) = String x (a +:+ (b +:+ c))).
  now rewrite IH.
Qed.

(** The scanner reads the text that [%q] wrote for one character as one
    character again. *)
Lemma scan_escaped_rune (c : ascii) (t : string) :
  scanString lsPlain (appendEscapedRune c +:+ t)
    = emit (readBack c) (scanString lsPlain t).
Proof.
  destruct c as [[] [] [] [] [] [] [] []]; reflexivity.
Qed.

Lemma scan_quoteBody (s t : string) :
  scanString lsPlain (quoteBody s +:+ String dquote t) = Some (received s, t).
Proof.
  induction s as [|c s IH].
  - reflexivity.
  - change (quoteBody (String c s)) with (appendEscapedRune c +:+ quoteBody s).
    rewrite append_assoc, scan_escaped_rune, IH. reflexivity.
Qed.

(** Whatever the string, its quoted form is read as one literal, and the
    scanner stops exactly behind it: the content cannot end the literal early. *)
Lemma Quote_read_back (s rest : string) :
  stringLiteral (Quote s +:+ rest) = Some (received s, rest).
Proof.
  unfold Quote.
  change (stringLiteral (String dquote ((quoteBody s +:+ String dquote "") +:+ rest))
          = Some (received s, rest)).
  unfold stringLiteral.
  change (N_of_ascii dquote =? 34)%N with true. cbv iota.
  rewrite append_assoc. apply scan_quoteBody.
Qed.

Lemma received_without_bell (s : string) :
  7%N ∉ codeUnits s -> received s = codeUnits s.
Proof.
  induction s as [|c s IH]; [reflexivity|].
  cbn [codeUnits received]. rewrite not_elem_of_cons. intros [Hc Hs].
  rewrite IH by assumption. f_equal. unfold readBack.
  destruct (N.eqb_spec (N_of_ascii c) 7); congruence.
Qed.

Lemma callScript_one_string (functionName s : string) :
  Runner.callScript functionName [GoString s] = functionName +:+ "(" +:+ Quote s +:+ ")".
Proof. reflexivity. Qed.

(** A string argument of code points below 256 (the strings of this
    development) without the character BEL reaches the script as it is. *)
Lemma Call_string_round_trip (functionName s : string) :
  7%N ∉ codeUnits s ->
  exists prefix,
    Runner.callScript functionName [GoString s] = prefix +:+ Quote s +:+ ")" /\
    stringLiteral (Quote s +:+ ")") = Some (codeUnits s, ")").
Proof.
  intros Hs. exists (functionName +:+ "("). split.
  - rewrite callScript_one_string. now rewrite append_assoc.
  - rewrite Quote_read_back. now rewrite received_without_bell.
Qed.

(** C2, at the input where the code fails it.  [Call] with the one-character
    string BEL builds the script [f(...)] whose argument is the literal made
    of a backslash and the letter a between quotes, and the script reads that
    literal as the string a, not as BEL. *)
Theorem Call_bell_argument_read_as_letter :
  Runner.callScript "f" [GoString Sample.bell] = "f(" +:+ Quote Sample.bell +:+ ")" /\
  Quote Sample.bell = String dquote ("\a" +:+ String dquote "") /\
  stringLiteral (Quote Sample.bell +:+ ")") = Some ([97%N], ")") /\
  codeUnits Sample.bell = [7%N] /\
  codeUnits "a" = [97%N].
Proof. repeat split. Qed.

End QuoteFacts.

(** ** The synchronous Runner *)

Section RunnerFacts.
Context `{NumberText} `{Engine}.
Variable ReadFile : string -> string + error.

Lemma RunString_malformed (vm : gmap string Value) (src : string) (err : error) :
  Compile src = inr err -> RunString vm src = (vm, inr err).
Proof. intros Hc. unfold RunString. now rewrite Hc. Qed.

Lemma RunString_global (vm : gmap string Value) (name : string) (v : Value) :
  GlobalReference name -> vm !! name = Some v -> RunString vm name = (vm, inl v).
Proof.
  intros (p & Hc & Hrun) Hv. unfold RunString. rewrite Hc. now apply Hrun.
Qed.

Lemma Runner_eta (r : Runner.Runner) :
  {| Runner.vm := Runner.vm r; Runner.globals := Runner.globals r |} = r.
Proof. now destruct r. Qed.

(** C5. For a source text that does not parse, [LoadScriptString], [Eval] and
    [LoadScript] of a file with that content return an error that wraps the
    parser's error, and leave the runner, its engine state and registry
    included, as it was. *)
Theorem malformed_source_changes_nothing (r : Runner.Runner) (src : string) (err : error) :
  Compile src = inr err ->
  Runner.LoadScriptString r src
    = (r, Some (wrapError "failed to execute script: " err)) /\
  Runner.Eval r src
    = (r, inr (wrapError "failed to evaluate expression: " err)) /\
  (forall path, ReadFile path = inl src ->
     Runner.LoadScript ReadFile r path
       = (r, Some (wrapError "failed to execute script: " err))) /\
  rootCause (wrapError "failed to execute script: " err) = rootCause err /\
  rootCause (wrapError "failed to evaluate expression: " err) = rootCause err.
Proof.
  intros Hc. repeat split.
  - unfold Runner.LoadScriptString. rewrite (RunString_malformed _ _ _ Hc).
    now rewrite Runner_eta.
  - unfold Runner.Eval. rewrite (RunString_malformed _ _ _ Hc).
    now rewrite Runner_eta.
  - intros path Hpath. unfold Runner.LoadScript. rewrite Hpath.
    rewrite (RunString_malformed _ _ _ Hc). now rewrite Runner_eta.
Qed.



End RunnerFacts.

(** ** The cooperative loop *)

Section EventLoopFacts.
Context {J : Type}.

Lemma insertTimer_In (t : eventloop.Timer J) (ts : list (eventloop.Timer J)) :
  In t (eventloop.insertTimer t ts).
Proof.
  induction ts as [|t' ts IH]; cbn.
  - now left.
  - destruct (eventloop.due t <? eventloop.due t')%Z; [now left|now right].
Qed.

Lemma next_not_running (l : eventloop.EventLoop J) :
  eventloop.running l = false -> eventloop.next l = None.
Proof. intros Hr. unfold eventloop.next. now rewrite Hr. Qed.

End EventLoopFacts.

(** ** The EventLoopRunner *)

Section EventLoopRunnerFacts.
Context `{NumberText} `{Engine} {Host : Type}.
Import EventLoopRunner.

Local Abbreviation World := (World (Host := Host)).
Local Abbreviation Job := (Job (Host := Host)).
Local Abbreviation EventLoopRunner := (EventLoopRunner (Host := Host)).
Local Abbreviation Closure := (Closure (Host := Host)).

(** *** Binding the registry *)

Lemma bind_registry_lookup (gs : gmap string GoValue) (vm : gmap string Value) (k : string) :
  map_fold (fun name value vm => RuntimeSet vm name value) vm gs !! k
    = match gs !! k with
      | Some value => Some (ToValue value)
      | None => vm !! k
      end.
Proof.
  revert k.
  apply (map_fold_weak_ind
           (fun (r : gmap string Value) (m : gmap string GoValue) =>
              forall k, r !! k = match m !! k with
                                 | Some value => Some (ToValue value)
                                 | None => vm !! k
                                 end)).
  - intros k. now rewrite lookup_empty.
  - intros i x m r Hfresh IH k. unfold RuntimeSet.
    destruct (decide (i = k)) as [->|Hne].
    + now rewrite !lookup_insert_eq.
    + rewrite !lookup_insert_ne by assumption. apply IH.
Qed.

Lemma setupVM_lookup (r : EventLoopRunner) (vm : gmap string Value)
      (name : string) (value : GoValue) :
  globals r !! name = Some value ->
  shadowedByFetch r name = false ->
  setupVM r vm !! name = Some (ToValue value).
Proof.
  intros Hreg Hsh. unfold setupVM, shadowedByFetch in *.
  destruct (webAccessEnabled r); simpl in Hsh.
  - apply orb_false_elim in Hsh as [Ht Hj].
    apply String.eqb_neq in Ht. apply String.eqb_neq in Hj.
    unfold installFetchGlobals, RuntimeSet.
    rewrite !lookup_insert_ne by congruence.
    rewrite bind_registry_lookup. now rewrite Hreg.
  - rewrite bind_registry_lookup. now rewrite Hreg.
Qed.


(** What each kind of closure does when the worker runs it.  The closures
    of [Run], [RunOnLoop], [SetTimeout] and [SetInterval], the closure of
    [RunAsync] and the closure of [AwaitPromise] run the user function or
    source text on a runtime to which the registry has just been bound:
    whatever the runtime held before, every registered name that is not
    shadowed by a fetch helper holds its registry value there. *)
Theorem registry_bound_before_user_code (w : World) (name : string) (value : GoValue) :
  globals (runner w) !! name = Some value ->
  shadowedByFetch (runner w) name = false ->
  exists vm0 : gmap string Value,
    vm0 !! name = Some (ToValue value) /\
    (forall fn : Closure,
       host (execJob w (setupThen fn)) = snd (fn vm0 (host w)) /\
       eventloop.vm (loop (runner (execJob w (setupThen fn)))) = fst (fn vm0 (host w))) /\
    (forall code,
       eventloop.vm (loop (runner (execJob w (runCode code)))) = fst (RunString vm0 code) /\
       match snd (RunString vm0 code) with
       | inl v => result (execJob w (runCode code)) = Some v /\
                  runErr (execJob w (runCode code)) = None
       | inr err => result (execJob w (runCode code)) = None /\
                    runErr (execJob w (runCode code)) = Some err
       end) /\
    (forall code,
       eventloop.vm (loop (runner (execJob w (awaitCode code)))) = fst (runWrapped vm0 code) /\
       match snd (runWrapped vm0 code) with
       | inl (obj, k) =>
           eventloop.auxJobs (loop (runner (execJob w (awaitCode code))))
             = eventloop.auxJobs (loop (runner w)) ++ [checkResult obj k]
       | inr err => promiseErr (execJob w (awaitCode code)) = Some err
       end) /\
    (forall fn : Closure,
       eventloop.auxJobs (loop (RunOnLoop (runner w) fn))
         = eventloop.auxJobs (loop (runner w)) ++ [setupThen fn]) /\
    (forall (fn : Closure) delay,
       exists t, In t (eventloop.timers (loop (fst (SetTimeout (runner w) fn delay)))) /\
                 eventloop.job t = setupThen fn /\ eventloop.period t = None) /\
    (forall (fn : Closure) interval,
       exists t, In t (eventloop.timers (loop (fst (SetInterval (runner w) fn interval)))) /\
                 eventloop.job t = setupThen fn /\ eventloop.period t = Some interval).
Proof.
  intros Hreg Hsh.
  exists (setupVM (runner w) (eventloop.vm (loop (runner w)))).
  split; [now apply setupVM_lookup|].
  split; [|split; [|split; [|split; [|split]]]].
  - intros fn. unfold execJob. now destruct (fn _ _).
  - intros code. unfold execJob. destruct (RunString _ _) as [vm' [v|err]]; now repeat split.
  - intros code. unfold execJob.
    destruct (runWrapped _ _) as [vm' [[obj k]|err]]; now split.
  - reflexivity.
  - intros fn delay. eexists. split; [apply insertTimer_In|]. now split.
  - intros fn interval. eexists. split; [apply insertTimer_In|]. now split.
Qed.

(** *** Waiting for a promise *)

Lemma awaitDone_eq (fuel : nat) (w : World) :
  awaitDone fuel w =
  if done w then Returned (resolvedValue w, promiseErr w) w
  else match eventloop.next (loop (runner w)) with
       | None => Blocked w
       | Some (j, l) =>
           match fuel with
           | O => OutOfFuel
           | S fuel' => awaitDone fuel' (execJob (setLoop w l) j)
           end
       end.
Proof. now destruct fuel. Qed.

(** C3, as the code has it.  [AwaitPromise] checks no state.  On a bridge that
    is not running (never started, or stopped) it hands its closure to the
    loop and waits: the closure stays queued, the source is not evaluated, and
    the call does not return, with an error or otherwise, however long the
    caller waits. *)
Theorem AwaitPromise_waits_unless_running (w : World) (code : string) (fuel : nat) :
  eventloop.running (loop (runner w)) = false ->
  AwaitPromise fuel w code
    = Blocked (setLoop (clearAwait w)
                 (eventloop.RunOnLoop (loop (runner w)) (awaitCode code))).
Proof.
  intros Hstopped. unfold AwaitPromise. rewrite awaitDone_eq.
  cbn [done setLoop clearAwait].
  rewrite next_not_running; [reflexivity|exact Hstopped].
Qed.

Lemma AwaitPromise_first_step (w : World) (code : string) (fuel : nat) :
  eventloop.running (loop (runner w)) = true ->
  eventloop.auxJobs (loop (runner w)) = [] ->
  AwaitPromise (S fuel) w code
    = awaitDone fuel (execJob (clearAwait w) (awaitCode code)).
Proof.
  intros Hrun Haux. unfold AwaitPromise.
  destruct w as [[[vm run aux tms clk nid] gs web] h rv pe d res re].
  cbn in Hrun, Haux. subst. rewrite awaitDone_eq. reflexivity.
Qed.


(** [checkResult] resubmits itself until the continuation has run. *)
Lemma checkResult_polls (n : nat) :
  forall (fuel : nat) (w : World) (f : bool) (v : Value),
    done w = false ->
    resolvedValue w = GoNil ->
    promiseErr w = None ->
    eventloop.running (loop (runner w)) = true ->
    eventloop.auxJobs (loop (runner w)) = [checkResult initialResult (attached n f v)] ->
    (n + 2 <= fuel)%nat ->
    exists w',
      awaitDone fuel w
        = Returned (if f then (ValueExport v, None)
                    else if isUndefinedOrNull v then (GoNil, None)
                    else (GoNil, Some (errorString
                            ("promise rejected: " +:+ fmt_v (ValueExport v))))) w' /\
      eventloop.timers (loop (runner w')) = eventloop.timers (loop (runner w)) /\
      eventloop.nextId (loop (runner w')) = eventloop.nextId (loop (runner w)).
Proof.
  induction n as [|n IH]; intros fuel w f v Hd Hrv Hpe Hrun Haux Hfuel.
  - destruct fuel as [|[|fuel]]; [lia|lia|].
    destruct w as [[[vm run aux tms clk nid] gs web] h rv pe d res re].
    cbn in Hd, Hrv, Hpe, Hrun, Haux. subst.
    rewrite awaitDone_eq. cbn.
    destruct f; cbn.
    + rewrite awaitDone_eq. cbn. eexists. split; [reflexivity|]. cbn. auto.
    + rewrite awaitDone_eq. cbn.
      destruct (isUndefinedOrNull v) eqn:Hv; cbn;
        (eexists; split; [reflexivity|]; cbn; auto).
  - destruct fuel as [|fuel]; [lia|].
    destruct w as [[[vm run aux tms clk nid] gs web] h rv pe d res re].
    cbn in Hd, Hrv, Hpe, Hrun, Haux. subst.
    rewrite awaitDone_eq. cbn.
    edestruct (IH fuel) as (w' & Hw' & Hrest); [..|exists w'; split; [exact Hw'|exact Hrest]];
      cbn; try reflexivity. lia.
Qed.

(** What [AwaitPromise] returns for a promise that settles: the exported value
    when it is fulfilled, an error that prints the exported reason when it is
    rejected with a reason other than undefined and null, and nil with no
    error when it is rejected with undefined or null. *)
Lemma AwaitPromise_settled (w : World) (code : string)
      (vm' : gmap string Value) (p : Value) (n : nat) (f : bool) (v : Value) (fuel : nat) :
  eventloop.running (loop (runner w)) = true ->
  eventloop.auxJobs (loop (runner w)) = [] ->
  EvalInitializer (setupVM (runner w) (eventloop.vm (loop (runner w)))) code = (vm', inl p) ->
  thenableOf p = Some (settles n f v) ->
  (n + 2 <= fuel)%nat ->
  exists w',
    AwaitPromise fuel w code
      = Returned (if f then (ValueExport v, None)
                  else if isUndefinedOrNull v then (GoNil, None)
                  else (GoNil, Some (errorString
                          ("promise rejected: " +:+ fmt_v (ValueExport v))))) w' /\
    eventloop.timers (loop (runner w')) = eventloop.timers (loop (runner w)) /\
    eventloop.nextId (loop (runner w')) = eventloop.nextId (loop (runner w)).
Proof.
  intros Hrun Haux Heval Hthen Hfuel.
  destruct fuel as [|fuel]; [lia|].
  rewrite AwaitPromise_first_step by assumption.
  destruct w as [[[vm run aux tms clk nid] gs web] h rv pe d res re].
  cbn [runner loop eventloop.vm eventloop.running eventloop.auxJobs] in *. subst.
  unfold execJob, runWrapped.
  cbn [runner loop eventloop.vm clearAwait].
  rewrite Heval, Hthen.
  destruct n as [|n].
  - destruct fuel as [|fuel]; [lia|].
    rewrite awaitDone_eq. cbn.
    destruct f; cbn.
    + rewrite awaitDone_eq. cbn. eexists. split; [reflexivity|]. cbn. auto.
    + rewrite awaitDone_eq. cbn.
      destruct (isUndefinedOrNull v) eqn:Hv; cbn;
        (eexists; split; [reflexivity|]; cbn; auto).
  - edestruct (checkResult_polls n fuel) as (w' & Hw' & Ht & Hn);
      [..|exists w'; split; [exact Hw'|split; [exact Ht|exact Hn]]];
      cbn; try reflexivity. lia.
Qed.

End EventLoopRunnerFacts.

(** ** Timers *)

Section TimerFacts.
Context `{NumberText} `{Engine}.
Import EventLoopRunner MultipleTimeouts.

Local Abbreviation World := (World (Host := list nat)).
Local Abbreviation EventLoopRunner := (EventLoopRunner (Host := list nat)).








End TimerFacts.

(** ** Runs on the sample engine *)

Section SampleRuns.
Local Existing Instance Sample.numberText.
Local Existing Instance Sample.engine.
Import EventLoopRunner.


(** C1, at the input where the code fails it.  On a started bridge,
    [AwaitPromise] of a promise that is rejected without a reason (the reason
    is undefined) returns nil and no error. *)
Theorem AwaitPromise_rejection_without_reason :
  exists w',
    AwaitPromise 2 (Sample.started tt false) "Promise.reject()" = Returned (GoNil, None) w'.
Proof. eexists. vm_compute. reflexivity. Qed.

Example AwaitPromise_rejection_with_null :
  exists w',
    AwaitPromise 2 (Sample.started tt false) "Promise.reject(null)" = Returned (GoNil, None) w'.
Proof. eexists. vm_compute. reflexivity. Qed.

Example AwaitPromise_rejection_with_boom :
  exists w',
    AwaitPromise 2 (Sample.started tt false) "Promise.reject('boom')"
      = Returned (GoNil, Some (errorString "promise rejected: boom")) w'.
Proof. eexists. vm_compute. reflexivity. Qed.

Lemma AwaitPromise_before_Start_no_usage_error :
  AwaitPromise 100 (Sample.created tt false) "42"
    = Blocked (setLoop (clearAwait (Sample.created tt false))
                 (eventloop.RunOnLoop (loop (runner (Sample.created tt false)))
                    (awaitCode "42"))) /\
  ~ (exists err w',
       AwaitPromise 100 (Sample.created tt false) "42" = Returned (GoNil, Some err) w').
Proof.
  split; [reflexivity|]. intros (err & w' & Heq). discriminate Heq.
Qed.

Lemma AwaitPromise_waits_unless_running_witness :
  eventloop.running (loop (runner Sample.stopped)) = false /\
  AwaitPromise 7 Sample.stopped "Promise.resolve(7)"
    = Blocked (setLoop (clearAwait Sample.stopped)
                 (eventloop.RunOnLoop (loop (runner Sample.stopped))
                    (awaitCode "Promise.resolve(7)"))).
Proof.
  split; [reflexivity|].
  apply (AwaitPromise_waits_unless_running Sample.stopped). reflexivity.
Defined.


Lemma malformed_source_witness :
  Compile "var x = ;" = inr (CompilerSyntaxError "Unexpected token ;") /\
  Runner.LoadScriptString Runner.New "var x = ;"
    = (Runner.New, Some (wrapError "failed to execute script: "
                           (CompilerSyntaxError "Unexpected token ;"))).
Proof.
  split; [reflexivity|].
  apply (malformed_source_changes_nothing (fun _ => inl "var x = ;") Runner.New "var x = ;"
           (CompilerSyntaxError "Unexpected token ;")).
  reflexivity.
Defined.




Example multiple_timeouts_order :
  host <$> pump 3 (withRunner (Sample.started [] false)
              (MultipleTimeouts.submit (runner (Sample.started [] false))
                 (MultipleTimeouts.numbered 0 MultipleTimeouts.scenario)))
   = Some [1; 2; 3]%nat.
Proof. vm_compute. reflexivity. Qed.

Lemma registry_bound_before_user_code_witness :
  exists vm0 : gmap string Value,
    vm0 !! "myValue" = Some (valueInt 123) /\
    forall fn : Closure (Host := option Value),
      host (execJob (Sample.webBridge "myValue" (GoInt 123)) (setupThen fn))
        = snd (fn vm0 None).
Proof.
  destruct (registry_bound_before_user_code (Sample.webBridge "myValue" (GoInt 123))
              "myValue" (GoInt 123) eq_refl eq_refl) as (vm0 & Hvm0 & Hfn & _).
  exists vm0. split; [exact Hvm0|]. intros fn. exact (proj1 (Hfn fn)).
Defined.

(** C10, at the input where the code fails it.  On a bridge with web access
    enabled, [SetGlobal("fetchText", 1)] puts the value in the registry, and
    yet the closure of [Run] finds the fetch helper under that name, and
    [RunAsync("fetchText")] returns the helper: [setupVM] installs the helpers
    after it has bound the registry.  The synchronous runner with web access
    enabled binds the value that was set. *)
Theorem fetch_helper_shadows_registry :
  globals (runner (Sample.webBridge "fetchText" (GoInt 1))) !! "fetchText"
    = Some (GoInt 1) /\
  match Run 1 (Sample.webBridge "fetchText" (GoInt 1)) (Sample.probe "fetchText") with
  | Returned _ w' => host w'
  | _ => None
  end = Some (ToValue (GoFunc "fetchText")) /\
  match RunAsync 1 (Sample.webBridge "fetchText" (GoInt 1)) "fetchText" with
  | Returned (val, _) _ => val
  | _ => None
  end = Some (ToValue (GoFunc "fetchText")) /\
  ToValue (GoFunc "fetchText") <> ToValue (GoInt 1) /\
  Runner.vm (WebAccess.core
               (WebAccess.SetGlobal (WebAccess.New [WebAccess.WithWebAccess None])
                  "fetchText" (GoInt 1))) !! "fetchText"
    = Some (ToValue (GoInt 1)).
Proof.
  split; [reflexivity|]. split; [vm_compute; reflexivity|].
  split; [vm_compute; reflexivity|]. split; [discriminate|reflexivity].
Qed.


(** A double that is an integer becomes the integer value, and one that is
    not (here 1.5, beside the double 3) stays a double. *)
Example ToValue_integral_float :
  ToValue (GoFloat (float64_of_Z 42)) = valueInt 42 /\
  ValueExport (ToValue (GoFloat (float64_of_Z 42))) = GoInt 42 /\
  float64_same (float64_of_Z 3) (S754_finite false 6755399441055744 (-51)) = true /\
  ToValue (GoFloat (S754_finite false 6755399441055744 (-52)))
    = valueFloat (S754_finite false 6755399441055744 (-52)).
Proof. vm_compute. repeat split. Qed.

End SampleRuns.

(** ** More on the synchronous Runner *)

Section RunnerMore.
Context `{NumberText} `{Engine}.

(** [NewWithGlobals] without options registers exactly the given map, and
    binds every one of its names in the runtime to the converted value; a
    name outside the map is not bound. *)
Theorem NewWithGlobals_binds_all (gs : gmap string GoValue) :
  Runner.globals (Runner.NewWithGlobals gs) = gs /\
  forall name, Runner.vm (Runner.NewWithGlobals gs) !! name = ToValue <$> gs !! name.
Proof.
  unfold Runner.NewWithGlobals.
  apply (map_fold_weak_ind
           (fun (r : Runner.Runner) (m : gmap string GoValue) =>
              Runner.globals r = m /\
              forall name, Runner.vm r !! name = ToValue <$> m !! name)).
  - split; [reflexivity|]. intros name. cbn. now rewrite !lookup_empty.
  - intros k v m r Hfresh [Hg Hvm]. split.
    + cbn. now rewrite Hg.
    + intros name. cbn. unfold RuntimeSet.
      destruct (decide (k = name)) as [->|Hne].
      * now rewrite !lookup_insert_eq.
      * rewrite !lookup_insert_ne by assumption. apply Hvm.
Qed.

Lemma concat_cons_cons (sep x y : string) (l : list string) :
  String.concat sep (x :: y :: l) = x +:+ sep +:+ String.concat sep (y :: l).
Proof. reflexivity. Qed.

Lemma concat_append_head (sep x y : string) (l : list string) :
  String.concat sep ((x +:+ sep +:+ y) :: l) = x +:+ sep +:+ String.concat sep (y :: l).
Proof.
  destruct l as [|z l]; [reflexivity|].
  rewrite !concat_cons_cons. now rewrite !append_assoc.
Qed.

Lemma formatArgs_later (args : list GoValue) :
  forall (jsArgs : string) (i : nat),
    (0 < i)%nat ->
    Runner.formatArgs jsArgs i args
      = String.concat ", " (jsArgs :: map Runner.formatArg args).
Proof.
  induction args as [|a rest IH]; intros jsArgs i Hi; [reflexivity|].
  cbn [Runner.formatArgs map].
  destruct (Nat.ltb_spec 0 i) as [_|Hc]; [|lia].
  rewrite IH by lia. rewrite append_assoc, concat_append_head.
  now rewrite concat_cons_cons.
Qed.

(** The script that [Call] builds is the function name, an opening
    parenthesis, the formatted arguments separated by a comma and a space,
    and a closing parenthesis: no separator before the first argument or
    after the last, and [name()] for no arguments. *)
Theorem callScript_joins_arguments (functionName : string) (args : list GoValue) :
  Runner.callScript functionName args
    = functionName +:+ "(" +:+ String.concat ", " (map Runner.formatArg args) +:+ ")".
Proof.
  assert (Hargs : Runner.formatArgs "" 0 args
                  = String.concat ", " (map Runner.formatArg args)).
  { destruct args as [|a rest]; [reflexivity|].
    cbn [Runner.formatArgs map]. cbn [Nat.ltb Nat.leb].
    change ("" +:+ Runner.formatArg a) with (Runner.formatArg a).
    apply formatArgs_later. lia. }
  unfold Runner.callScript. now rewrite Hargs.
Qed.

(** [Call] does to the runner what [Eval] of the script it builds does, and
    keeps the registry; the two return the same value, and on failure wrap
    the same engine error, [Call] behind [failed to call function <name>: ]
    and [Eval] behind [failed to evaluate expression: ]. *)
Theorem Call_is_Eval_of_callScript (r : Runner.Runner) (functionName : string)
        (args : list GoValue) :
  fst (Runner.Call r functionName args)
    = fst (Runner.Eval r (Runner.callScript functionName args)) /\
  Runner.globals (fst (Runner.Call r functionName args)) = Runner.globals r /\
  match snd (RunString (Runner.vm r) (Runner.callScript functionName args)) with
  | inl v =>
      snd (Runner.Call r functionName args) = inl v /\
      snd (Runner.Eval r (Runner.callScript functionName args)) = inl v
  | inr err =>
      snd (Runner.Call r functionName args)
        = inr (wrapError ("failed to call function " +:+ functionName +:+ ": ") err) /\
      snd (Runner.Eval r (Runner.callScript functionName args))
        = inr (wrapError "failed to evaluate expression: " err)
  end.
Proof.
  unfold Runner.Call, Runner.Eval.
  destruct (RunString _ _) as [vm' [v|err]]; cbn; auto.
Qed.

(** Whatever characters a string argument holds, the text [Call] writes for
    it is read by the script as one string literal that ends where the
    written text ends and has one code unit for each character: an argument
    cannot close its literal early and cannot grow or shrink. *)
Theorem Quote_is_one_literal (s rest : string) :
  exists units,
    stringLiteral (Quote s +:+ rest) = Some (units, rest) /\
    length units = String.length s.
Proof.
  exists (received s). split; [apply Quote_read_back|].
  induction s as [|c s IH]; cbn; [reflexivity|now rewrite IH].
Qed.

End RunnerMore.

(** ** Runner options and web access *)

Section WebAccessFacts.
Context `{NumberText}.
Import WebAccess.

Lemma initWebAccess_ready (r : Runner) :
  (0 < webAccessTimeout (initWebAccess r))%Z /\
  (exists c, httpClient (initWebAccess r) = Some c) /\
  Runner.globals (core (initWebAccess r)) !! "fetchText" = Some (GoFunc "fetchText") /\
  Runner.globals (core (initWebAccess r)) !! "fetchJSON" = Some (GoFunc "fetchJSON") /\
  Runner.vm (core (initWebAccess r)) !! "fetchText" = Some (ToValue (GoFunc "fetchText")) /\
  Runner.vm (core (initWebAccess r)) !! "fetchJSON" = Some (ToValue (GoFunc "fetchJSON")) /\
  webAccessEnabled (initWebAccess r) = webAccessEnabled r.
Proof.
  unfold initWebAccess, installFetchGlobals, SetGlobal, Runner.SetGlobal, RuntimeSet.
  destruct r as [c cl en t]. cbn.
  destruct (Z.leb_spec t 0); destruct cl; cbn;
    rewrite ?lookup_insert_eq, ?(lookup_insert_ne _ "fetchJSON" "fetchText") by discriminate;
    rewrite ?lookup_insert_eq; unfold defaultWebAccessTimeout;
    repeat split; eauto; lia.
Qed.

(** Whatever options [New] is given, nil ones and ones of the caller's own
    included: if the runner it returns has web access enabled, then its
    timeout is positive, it has an HTTP client, and [fetchText] and
    [fetchJSON] are registered and bound in the runtime. *)
Theorem New_web_access_ready (opts : list Option) :
  webAccessEnabled (New opts) = true ->
  (0 < webAccessTimeout (New opts))%Z /\
  (exists c, httpClient (New opts) = Some c) /\
  Runner.globals (core (New opts)) !! "fetchText" = Some (GoFunc "fetchText") /\
  Runner.globals (core (New opts)) !! "fetchJSON" = Some (GoFunc "fetchJSON") /\
  Runner.vm (core (New opts)) !! "fetchText" = Some (ToValue (GoFunc "fetchText")) /\
  Runner.vm (core (New opts)) !! "fetchJSON" = Some (ToValue (GoFunc "fetchJSON")).
Proof.
  unfold New, applyOptions.
  set (r := applyEach _ opts).
  destruct (webAccessEnabled r) eqn:Hen; [|congruence].
  intros _. destruct (initWebAccess_ready r) as (Ht & Hc & H1 & H2 & H3 & H4 & _).
  auto 10.
Qed.

(** [New(WithWebAccess(cfg))] enables web access.  Its timeout is the
    configured one when that is positive and ten seconds otherwise (nil
    configuration, zero or negative timeout); its client is the configured
    one, or else a new client whose timeout is the runner's. *)
Theorem New_WithWebAccess_settings (cfg : option WebAccessConfig) :
  webAccessEnabled (New [WithWebAccess cfg]) = true /\
  webAccessTimeout (New [WithWebAccess cfg])
    = match cfg with
      | Some c => if (0 <? Timeout c)%Z then Timeout c else defaultWebAccessTimeout
      | None => defaultWebAccessTimeout
      end /\
  httpClient (New [WithWebAccess cfg])
    = Some match cfg with
           | Some {| Client := Some c |} => c
           | _ => {| http.Timeout := webAccessTimeout (New [WithWebAccess cfg]);
                     http.Transport := "" |}
           end.
Proof.
  unfold New, applyOptions, applyEach, initWebAccess.
  destruct cfg as [[[c|] t]|]; cbn;
    try (destruct (Z.ltb_spec 0 t); cbn; [destruct (Z.leb_spec t 0); [lia|]|]);
    cbn; repeat split.
Qed.

Lemma installFetchGlobals_twice (r : Runner) :
  installFetchGlobals (installFetchGlobals r) = installFetchGlobals r.
Proof.
  destruct r as [[vm gs] cl en t].
  unfold installFetchGlobals, SetGlobal, Runner.SetGlobal, RuntimeSet. cbn.
  f_equal. f_equal.
  - apply map_eq. intros k.
    destruct (decide (k = "fetchJSON")) as [Hj|Hj];
      destruct (decide (k = "fetchText")) as [Ht|Ht]; subst; try discriminate;
      by simplify_map_eq.
  - apply map_eq. intros k.
    destruct (decide (k = "fetchJSON")) as [Hj|Hj];
      destruct (decide (k = "fetchText")) as [Ht|Ht]; subst; try discriminate;
      by simplify_map_eq.
Qed.

Lemma initWebAccess_when_ready (r : Runner) :
  (0 < webAccessTimeout r)%Z ->
  (exists c, httpClient r = Some c) ->
  initWebAccess r = installFetchGlobals r.
Proof.
  destruct r as [co cl en t]. cbn. intros Ht [c ->].
  unfold initWebAccess. cbn.
  destruct (Z.leb_spec t 0); [lia|reflexivity].
Qed.

Lemma initWebAccess_installs (r : Runner) :
  exists r', initWebAccess r = installFetchGlobals r'.
Proof. unfold initWebAccess. eexists. reflexivity. Qed.

(** What [EnableWebAccess r cfg] leaves in the web access fields. *)
Lemma EnableWebAccess_fields (r : Runner) (cfg : option WebAccessConfig) :
  let r1 := EnableWebAccess r cfg in
  webAccessEnabled r1 = true /\
  (0 < webAccessTimeout r1)%Z /\
  (exists c, httpClient r1 = Some c) /\
  (forall c' c, cfg = Some c' -> Client c' = Some c -> httpClient r1 = Some c) /\
  (forall c', cfg = Some c' -> (0 < Timeout c')%Z -> webAccessTimeout r1 = Timeout c').
Proof.
  destruct r as [co cl en t].
  assert (Hd : (0 < defaultWebAccessTimeout)%Z) by (unfold defaultWebAccessTimeout; lia).
  destruct cfg as [[ccl tc]|]; unfold EnableWebAccess, WithWebAccess, initWebAccess;
    cbn [core httpClient webAccessEnabled webAccessTimeout Client Timeout].
  - destruct (Z.ltb_spec 0 tc) as [Htc|Htc]; destruct ccl as [c0|];
      cbn [core httpClient webAccessEnabled webAccessTimeout];
      match goal with
      | |- context [(?a <=? 0)%Z] => destruct (Z.leb_spec a 0) as [Hle|Hle]
      end;
      cbn [core httpClient webAccessEnabled webAccessTimeout];
      try destruct cl as [c1|];
      cbn [core httpClient webAccessEnabled webAccessTimeout installFetchGlobals SetGlobal];
      (split; [reflexivity|]); (split; [lia|]); (split; [eauto|]);
      (split; [intros c' c [= <-]; cbn; congruence
              |intros c' [= <-]; cbn; intros; try reflexivity; lia]).
  - destruct (Z.leb_spec t 0) as [Hle|Hle];
      cbn [core httpClient webAccessEnabled webAccessTimeout];
      destruct cl as [c1|];
      cbn [core httpClient webAccessEnabled webAccessTimeout installFetchGlobals SetGlobal];
      (split; [reflexivity|]); (split; [lia|]); (split; [eauto|]);
      (split; [intros c' c [=]|intros c' [=]]).
Qed.

(** When the web access fields already hold what [cfg] asks for, enabling
    web access again only installs the helpers. *)
Lemma EnableWebAccess_when_settled (r : Runner) (cfg : option WebAccessConfig) :
  webAccessEnabled r = true ->
  (0 < webAccessTimeout r)%Z ->
  (exists c, httpClient r = Some c) ->
  (forall c' c, cfg = Some c' -> Client c' = Some c -> httpClient r = Some c) ->
  (forall c', cfg = Some c' -> (0 < Timeout c')%Z -> webAccessTimeout r = Timeout c') ->
  EnableWebAccess r cfg = installFetchGlobals r.
Proof.
  destruct r as [co cl en t]. cbn. intros -> Ht [c ->] Hcl Hto.
  unfold EnableWebAccess, WithWebAccess.
  destruct cfg as [[ccl tc]|];
    cbn [core httpClient webAccessEnabled webAccessTimeout Client Timeout].
  - assert (Hc : match ccl with Some c0 => Some c0 | None => Some c end = Some c).
    { destruct ccl as [c0|]; [|reflexivity].
      specialize (Hcl _ c0 eq_refl eq_refl). congruence. }
    destruct (Z.ltb_spec 0 tc) as [Htc|Htc].
    + specialize (Hto _ eq_refl Htc). cbn in Hto. subst tc.
      destruct ccl as [c0|]; cbn [core httpClient webAccessEnabled webAccessTimeout];
        [injection Hc as ->|]; apply initWebAccess_when_ready; cbn; eauto.
    + destruct ccl as [c0|]; cbn [core httpClient webAccessEnabled webAccessTimeout];
        [injection Hc as ->|]; apply initWebAccess_when_ready; cbn; eauto.
  - apply initWebAccess_when_ready; cbn; eauto.
Qed.

(** Calling [EnableWebAccess] a second time with the same configuration
    changes nothing: client, timeout, registry and runtime bindings are as
    the first call left them. *)
Theorem EnableWebAccess_idempotent (r : Runner) (cfg : option WebAccessConfig) :
  EnableWebAccess (EnableWebAccess r cfg) cfg = EnableWebAccess r cfg.
Proof.
  destruct (EnableWebAccess_fields r cfg) as (He & Ht & Hc & Hcl & Hto).
  rewrite EnableWebAccess_when_settled by assumption.
  unfold EnableWebAccess at 1 2.
  destruct (initWebAccess_installs
              {| core := core (match WithWebAccess cfg with Some f => f r | None => r end);
                 httpClient := httpClient (match WithWebAccess cfg with Some f => f r | None => r end);
                 webAccessEnabled := true;
                 webAccessTimeout := webAccessTimeout (match WithWebAccess cfg with Some f => f r | None => r end) |})
    as [r' ->].
  apply installFetchGlobals_twice.
Qed.

(** The client that [initWebAccess] creates keeps the timeout of its
    creation.  On a runner without a client, [EnableWebAccess] with timeout
    [t1] and no client, then again with timeout [t2] and no client, leaves
    the runner's timeout at [t2] and its client's timeout at [t1]. *)
Theorem EnableWebAccess_keeps_first_client (r : Runner) (t1 t2 : Z) :
  httpClient r = None ->
  (0 < t1)%Z ->
  (0 < t2)%Z ->
  let r1 := EnableWebAccess r (Some {| Client := None; Timeout := t1 |}) in
  let r2 := EnableWebAccess r1 (Some {| Client := None; Timeout := t2 |}) in
  webAccessTimeout r2 = t2 /\
  httpClient r2 = Some {| http.Timeout := t1; http.Transport := "" |}.
Proof.
  intros Hc Ht1 Ht2. destruct r as [co cl en t]. cbn in Hc. subst cl.
  intros r1.
  assert (H1 : httpClient r1 = Some {| http.Timeout := t1; http.Transport := "" |}
               /\ webAccessTimeout r1 = t1).
  { subst r1. unfold EnableWebAccess, WithWebAccess, initWebAccess.
    cbn [core httpClient webAccessEnabled webAccessTimeout Client Timeout].
    destruct (Z.ltb_spec 0 t1) as [_|]; [|lia].
    cbn [core httpClient webAccessEnabled webAccessTimeout].
    destruct (Z.leb_spec t1 0); [lia|].
    cbn. split; reflexivity. }
  destruct H1 as [Hc1 Hto1]. clearbody r1. destruct r1 as [co1 cl1 en1 to1].
  cbn in Hc1, Hto1. subst.
  unfold EnableWebAccess, WithWebAccess, initWebAccess.
  cbn [core httpClient webAccessEnabled webAccessTimeout Client Timeout].
  destruct (Z.ltb_spec 0 t2) as [_|]; [|lia].
  cbn [core httpClient webAccessEnabled webAccessTimeout].
  destruct (Z.leb_spec t2 0); [lia|].
  cbn. split; reflexivity.
Qed.

(** [NewWithGlobals] with options applies the options first and sets the
    given globals after: a given name is registered and bound to the given
    value even when it is [fetchText] or [fetchJSON] and web access is
    enabled; every other name, and the web access fields, are as [New] with
    the same options leaves them. *)
Theorem NewWithGlobals_binds_over_options (gs : gmap string GoValue) (opts : list Option) :
  (forall name,
     Runner.vm (core (NewWithGlobals gs opts)) !! name
       = match gs !! name with
         | Some value => Some (ToValue value)
         | None => Runner.vm (core (New opts)) !! name
         end) /\
  (forall name,
     Runner.globals (core (NewWithGlobals gs opts)) !! name
       = match gs !! name with
         | Some value => Some value
         | None => Runner.globals (core (New opts)) !! name
         end) /\
  httpClient (NewWithGlobals gs opts) = httpClient (New opts) /\
  webAccessEnabled (NewWithGlobals gs opts) = webAccessEnabled (New opts) /\
  webAccessTimeout (NewWithGlobals gs opts) = webAccessTimeout (New opts).
Proof.
  unfold NewWithGlobals.
  apply (map_fold_weak_ind
           (fun (r : Runner) (m : gmap string GoValue) =>
              (forall name,
                 Runner.vm (core r) !! name
                 = match m !! name with
                   | Some value => Some (ToValue value)
                   | None => Runner.vm (core (New opts)) !! name
                   end) /\
              (forall name,
                 Runner.globals (core r) !! name
                 = match m !! name with
                   | Some value => Some value
                   | None => Runner.globals (core (New opts)) !! name
                   end) /\
              httpClient r = httpClient (New opts) /\
              webAccessEnabled r = webAccessEnabled (New opts) /\
              webAccessTimeout r = webAccessTimeout (New opts))).
  - repeat split; intros name; now rewrite lookup_empty.
  - intros k v m r Hfresh (Hvm & Hgs & Hc & He & Ht).
    repeat split; try assumption; intros name; cbn; unfold RuntimeSet;
      (destruct (decide (k = name)) as [->|Hne];
       [now rewrite !lookup_insert_eq
       |rewrite !lookup_insert_ne by assumption; auto]).
Qed.

End WebAccessFacts.

(** ** More on the event-loop bridge *)

Section EventLoopRunnerMore.
Context `{NumberText} `{Engine} {Host : Type}.
Import EventLoopRunner.

Local Abbreviation World := (World (Host := Host)).
Local Abbreviation Job := (Job (Host := Host)).
Local Abbreviation EventLoopRunner := (EventLoopRunner (Host := Host)).
Local Abbreviation Closure := (Closure (Host := Host)).

Lemma setupVM_lookup_all (r : EventLoopRunner) (vm : gmap string Value) (name : string) :
  setupVM r vm !! name
    = if shadowedByFetch r name then Some (ToValue (GoFunc name))
      else match globals r !! name with
           | Some value => Some (ToValue value)
           | None => vm !! name
           end.
Proof.
  unfold setupVM, shadowedByFetch.
  destruct (webAccessEnabled r); cbn [andb].
  - unfold installFetchGlobals, RuntimeSet.
    destruct (String.eqb_spec name "fetchText") as [->|Ht]; cbn [orb].
    + rewrite lookup_insert_ne by discriminate. now rewrite lookup_insert_eq.
    + destruct (String.eqb_spec name "fetchJSON") as [->|Hj].
      * now rewrite lookup_insert_eq.
      * rewrite !lookup_insert_ne by congruence. apply bind_registry_lookup.
  - apply bind_registry_lookup.
Qed.

(** [setupVM] runs before every scheduled piece of code; running it again
    on a runtime it has already set up changes nothing. *)
Theorem setupVM_idempotent (r : EventLoopRunner) (vm : gmap string Value) :
  setupVM r (setupVM r vm) = setupVM r vm.
Proof.
  apply map_eq. intros name. rewrite !setupVM_lookup_all.
  destruct (shadowedByFetch r name); [reflexivity|].
  destruct (globals r !! name); reflexivity.
Qed.

(** [setupVM] does not touch what scripts defined themselves: a name that
    is not in the registry and is not a fetch helper of an enabled web
    access keeps the binding it had in the runtime. *)
Theorem setupVM_keeps_other_bindings (r : EventLoopRunner) (vm : gmap string Value)
        (name : string) :
  globals r !! name = None ->
  shadowedByFetch r name = false ->
  setupVM r vm !! name = vm !! name.
Proof. intros Hreg Hsh. rewrite setupVM_lookup_all. now rewrite Hsh, Hreg. Qed.

(** With web access enabled, [setupVM] binds [fetchText] and [fetchJSON]
    to the helpers, whatever the runtime and the registry held. *)
Theorem setupVM_installs_fetch_helpers (r : EventLoopRunner) (vm : gmap string Value) :
  webAccessEnabled r = true ->
  setupVM r vm !! "fetchText" = Some (ToValue (GoFunc "fetchText")) /\
  setupVM r vm !! "fetchJSON" = Some (ToValue (GoFunc "fetchJSON")).
Proof.
  intros Hweb. rewrite !setupVM_lookup_all. unfold shadowedByFetch. rewrite Hweb.
  split; reflexivity.
Qed.

Lemma registry_of_map (gs : gmap string GoValue) :
  map_fold (fun k v (m : gmap string GoValue) => <[k := v]> m) ∅ gs = gs.
Proof.
  apply (map_fold_weak_ind (fun (r m : gmap string GoValue) => r = m)).
  - reflexivity.
  - intros k v m r _ ->. reflexivity.
Qed.

(** [NewEventLoopRunnerWithGlobals] registers exactly the given map, and
    every given name that is not a fetch helper of an enabled web access is
    bound to its converted value once [setupVM] has run. *)
Theorem NewEventLoopRunnerWithGlobals_registers (gs : gmap string GoValue) (web : bool)
        (vm : gmap string Value) (name : string) (value : GoValue) :
  let r : EventLoopRunner := NewEventLoopRunnerWithGlobals gs web in
  gs !! name = Some value ->
  shadowedByFetch r name = false ->
  globals r = gs /\ setupVM r vm !! name = Some (ToValue value).
Proof.
  intros r Hgs Hsh.
  assert (Hreg : globals r = gs) by apply registry_of_map.
  split; [exact Hreg|].
  apply setupVM_lookup; [now rewrite Hreg|exact Hsh].
Qed.

(** *** Run and RunAsync *)

(** On a loop that is not running and has nothing queued, [Run] returns
    after running the closure once, on the runtime that [setupVM] prepared;
    the loop is left stopped with an empty queue and the registry as it was. *)
Theorem Run_runs_closure_once (w : World) (fn : Closure) (fuel : nat) :
  eventloop.running (loop (runner w)) = false ->
  eventloop.auxJobs (loop (runner w)) = [] ->
  eventloop.timers (loop (runner w)) = [] ->
  (1 <= fuel)%nat ->
  exists w',
    Run fuel w fn = Returned tt w' /\
    host w' = snd (fn (setupVM (runner w) (eventloop.vm (loop (runner w)))) (host w)) /\
    eventloop.vm (loop (runner w'))
      = fst (fn (setupVM (runner w) (eventloop.vm (loop (runner w)))) (host w)) /\
    eventloop.running (loop (runner w')) = false /\
    eventloop.auxJobs (loop (runner w')) = [] /\
    globals (runner w') = globals (runner w).
Proof.
  intros Hrun Haux Htms Hfuel. destruct fuel as [|fuel]; [lia|].
  destruct w as [[[vm run aux tms clk nid] gs web] h rv pe d res re].
  cbn in Hrun, Haux, Htms. subst.
  unfold Run, loopRun. cbn -[setupVM].
  destruct (fn _ h) as [vm' h'] eqn:Hfn. cbn -[setupVM].
  destruct fuel; cbn -[setupVM]; eexists; (split; [reflexivity|]); cbn; auto.
Qed.

(** On a loop that is not running and has nothing queued, [RunAsync] of
    the name of a registered global returns the converted value and no
    error, and leaves the loop stopped and the registry as it was. *)
Theorem RunAsync_reads_registered_global (w : World) (name : string) (value : GoValue)
        (fuel : nat) :
  eventloop.running (loop (runner w)) = false ->
  eventloop.auxJobs (loop (runner w)) = [] ->
  eventloop.timers (loop (runner w)) = [] ->
  globals (runner w) !! name = Some value ->
  shadowedByFetch (runner w) name = false ->
  GlobalReference name ->
  (1 <= fuel)%nat ->
  exists w',
    RunAsync fuel w name = Returned (Some (ToValue value), None) w' /\
    eventloop.running (loop (runner w')) = false /\
    globals (runner w') = globals (runner w) /\
    host w' = host w.
Proof.
  intros Hrun Haux Htms Hreg Hsh Href Hfuel. destruct fuel as [|fuel]; [lia|].
  destruct w as [[[vm run aux tms clk nid] gs web] h rv pe d res re].
  cbn [runner loop eventloop.vm eventloop.running eventloop.auxJobs eventloop.timers globals]
    in *. subst.
  assert (Hrs : forall r' : EventLoopRunner,
             globals r' = gs -> webAccessEnabled r' = web ->
             RunString (setupVM r' vm) name = (setupVM r' vm, inl (ToValue value))).
  { intros r' Hg Hw. apply RunString_global; [exact Href|].
    apply setupVM_lookup; [now rewrite Hg|].
    unfold shadowedByFetch in *. now rewrite Hw. }
  unfold RunAsync, loopRun. cbn -[setupVM RunString].
  rewrite Hrs by reflexivity. cbn -[setupVM].
  destruct fuel; cbn -[setupVM]; eexists; (split; [reflexivity|]); cbn; auto.
Qed.


(** *** AwaitPromise *)

(** When the wrapper script itself fails (the awaited code does not
    compile, throws, or calls [then] on something whose [then] returns no
    promise), [AwaitPromise] on a running loop returns nil and that error
    as it is, with no [promise rejected: ] prefix, and queues no check. *)
Theorem AwaitPromise_returns_wrapper_error (w : World) (code : string)
        (vm' : gmap string Value) (err : error) (fuel : nat) :
  eventloop.running (loop (runner w)) = true ->
  eventloop.auxJobs (loop (runner w)) = [] ->
  runWrapped (setupVM (runner w) (eventloop.vm (loop (runner w)))) code = (vm', inr err) ->
  (1 <= fuel)%nat ->
  exists w',
    AwaitPromise fuel w code = Returned (GoNil, Some err) w' /\
    eventloop.auxJobs (loop (runner w')) = [] /\
    eventloop.timers (loop (runner w')) = eventloop.timers (loop (runner w)) /\
    eventloop.vm (loop (runner w')) = vm'.
Proof.
  intros Hrun Haux Hwrapped Hfuel.
  destruct fuel as [|fuel]; [lia|].
  rewrite AwaitPromise_first_step by assumption.
  destruct w as [[[vm run aux tms clk nid] gs web] h rv pe d res re].
  cbn [runner loop eventloop.vm eventloop.running eventloop.auxJobs] in *. subst.
  unfold execJob. cbn [runner loop eventloop.vm clearAwait].
  rewrite Hwrapped. rewrite awaitDone_eq. cbn.
  eexists. split; [reflexivity|]. cbn. auto.
Qed.

Lemma checkResult_never_done (w : World) :
  done w = false ->
  eventloop.running (loop (runner w)) = true ->
  eventloop.auxJobs (loop (runner w)) = [checkResult initialResult detached] ->
  forall fuel, awaitDone fuel w = OutOfFuel.
Proof.
  intros Hd Hrun Haux fuel.
  destruct w as [[[vm run aux tms clk nid] gs web] h rv pe d res re].
  cbn in Hd, Hrun, Haux. subst.
  induction fuel as [|fuel IH]; rewrite awaitDone_eq; cbn; [reflexivity|exact IH].
Qed.

(** [AwaitPromise] has no timeout of its own: for a promise that never
    settles it does not return, however many iterations the loop makes; the
    check is queued again at every iteration. *)
Theorem AwaitPromise_polls_while_pending (w : World) (code : string)
        (vm' : gmap string Value) (p : Value) (fuel : nat) :
  eventloop.running (loop (runner w)) = true ->
  eventloop.auxJobs (loop (runner w)) = [] ->
  EvalInitializer (setupVM (runner w) (eventloop.vm (loop (runner w)))) code = (vm', inl p) ->
  thenableOf p = Some neverSettles ->
  AwaitPromise fuel w code = OutOfFuel.
Proof.
  intros Hrun Haux Heval Hthen.
  destruct fuel as [|fuel].
  - unfold AwaitPromise. rewrite awaitDone_eq.
    destruct w as [[[vm run aux tms clk nid] gs web] h rv pe d res re].
    cbn in Hrun, Haux. subst. reflexivity.
  - rewrite AwaitPromise_first_step by assumption.
    destruct w as [[[vm run aux tms clk nid] gs web] h rv pe d res re].
    cbn [runner loop eventloop.vm eventloop.running eventloop.auxJobs] in *. subst.
    unfold execJob, runWrapped. cbn [runner loop eventloop.vm clearAwait].
    rewrite Heval, Hthen.
    apply checkResult_never_done; reflexivity.
Qed.

(** On a running loop, [AwaitPromise] of a promise that is fulfilled with
    [v] after [n] iterations returns the exported [v] and no error, once
    the loop has made [n + 2] iterations; it leaves no timer behind. *)
Theorem AwaitPromise_fulfilled (w : World) (code : string)
        (vm' : gmap string Value) (p : Value) (n : nat) (v : Value) (fuel : nat) :
  eventloop.running (loop (runner w)) = true ->
  eventloop.auxJobs (loop (runner w)) = [] ->
  EvalInitializer (setupVM (runner w) (eventloop.vm (loop (runner w)))) code = (vm', inl p) ->
  thenableOf p = Some (settles n true v) ->
  (n + 2 <= fuel)%nat ->
  exists w',
    AwaitPromise fuel w code = Returned (ValueExport v, None) w' /\
    eventloop.timers (loop (runner w')) = eventloop.timers (loop (runner w)).
Proof.
  intros Hrun Haux Heval Hthen Hfuel.
  destruct (AwaitPromise_settled w code vm' p n true v fuel Hrun Haux Heval Hthen Hfuel)
    as (w' & Hw' & Ht & _).
  exists w'. split; [exact Hw'|exact Ht].
Qed.

(** On a running loop, [AwaitPromise] of a promise that is rejected with a
    reason other than undefined and null returns nil and an error whose
    message is [promise rejected: ] followed by the exported reason. *)
Theorem AwaitPromise_rejected_with_reason (w : World) (code : string)
        (vm' : gmap string Value) (p : Value) (n : nat) (e : Value) (fuel : nat) :
  eventloop.running (loop (runner w)) = true ->
  eventloop.auxJobs (loop (runner w)) = [] ->
  EvalInitializer (setupVM (runner w) (eventloop.vm (loop (runner w)))) code = (vm', inl p) ->
  thenableOf p = Some (settles n false e) ->
  e <> valueUndefined ->
  e <> valueNull ->
  (n + 2 <= fuel)%nat ->
  exists w',
    AwaitPromise fuel w code
      = Returned (GoNil, Some (errorString ("promise rejected: " +:+ fmt_v (ValueExport e)))) w' /\
    Error (errorString ("promise rejected: " +:+ fmt_v (ValueExport e)))
      = "promise rejected: " +:+ fmt_v (ValueExport e).
Proof.
  intros Hrun Haux Heval Hthen Hu Hn Hfuel.
  destruct (AwaitPromise_settled w code vm' p n false e fuel Hrun Haux Heval Hthen Hfuel)
    as (w' & Hw' & _).
  exists w'. split; [|reflexivity].
  rewrite Hw'. destruct e; try reflexivity; congruence.
Qed.

End EventLoopRunnerMore.

(** ** More sample runs *)

Section MoreRuns.
Local Existing Instance Sample.numberText.
Local Existing Instance MoreSamples.engine.
Import EventLoopRunner.

Lemma more_global_x : GlobalReference "x".
Proof.
  exists (Sample.refGlobal "x"). split; [reflexivity|].
  intros vm v Hv. cbn. now rewrite Hv.
Qed.

Lemma Call_string_round_trip_witness :
  exists prefix,
    Runner.callScript "greet" [GoString "hi"] = prefix +:+ Quote "hi" +:+ ")" /\
    stringLiteral (Quote "hi" +:+ ")") = Some (codeUnits "hi", ")").
Proof.
  apply (Call_string_round_trip "greet" "hi").
  apply (bool_decide_unpack _). vm_compute. exact I.
Defined.

Lemma setupVM_keeps_other_bindings_witness :
  setupVM (runner (Sample.webBridge "myValue" (GoInt 123))) {["counter" := valueInt 1]}
    !! "counter"
  = ({["counter" := valueInt 1]} : gmap string Value) !! "counter".
Proof.
  apply (setupVM_keeps_other_bindings (runner (Sample.webBridge "myValue" (GoInt 123))));
    reflexivity.
Defined.

Lemma setupVM_installs_fetch_helpers_witness :
  setupVM (runner (Sample.webBridge "fetchText" (GoInt 1))) ∅ !! "fetchText"
    = Some (ToValue (GoFunc "fetchText")) /\
  setupVM (runner (Sample.webBridge "fetchText" (GoInt 1))) ∅ !! "fetchJSON"
    = Some (ToValue (GoFunc "fetchJSON")).
Proof.
  apply (setupVM_installs_fetch_helpers (runner (Sample.webBridge "fetchText" (GoInt 1)))).
  reflexivity.
Defined.

Lemma NewEventLoopRunnerWithGlobals_registers_witness :
  globals (NewEventLoopRunnerWithGlobals (Host := unit)
             {["x" := GoInt 10; "y" := GoInt 20]} false)
    = {["x" := GoInt 10; "y" := GoInt 20]} /\
  setupVM (NewEventLoopRunnerWithGlobals (Host := unit)
             {["x" := GoInt 10; "y" := GoInt 20]} false) ∅ !! "x"
    = Some (ToValue (GoInt 10)).
Proof.
  apply (NewEventLoopRunnerWithGlobals_registers (Host := unit)
           {["x" := GoInt 10; "y" := GoInt 20]} false ∅ "x" (GoInt 10));
    reflexivity.
Defined.

Lemma Run_runs_closure_once_witness :
  exists w',
    Run 1 (Sample.webBridge "myValue" (GoInt 123)) (Sample.probe "myValue")
      = Returned tt w' /\
    host w' = Some (valueInt 123).
Proof.
  destruct (Run_runs_closure_once (Sample.webBridge "myValue" (GoInt 123))
              (Sample.probe "myValue") 1 eq_refl eq_refl eq_refl (le_n 1))
    as (w' & Hrun & Hhost & _).
  exists w'. split; [exact Hrun|]. rewrite Hhost. reflexivity.
Defined.

Lemma RunAsync_reads_registered_global_witness :
  exists w',
    RunAsync 1 (Sample.webBridge "x" (GoInt 10)) "x"
      = Returned (Some (ToValue (GoInt 10)), None) w' /\
    eventloop.running (loop (runner w')) = false /\
    globals (runner w') = globals (runner (Sample.webBridge "x" (GoInt 10))) /\
    host w' = host (Sample.webBridge "x" (GoInt 10)).
Proof.
  apply (RunAsync_reads_registered_global (Sample.webBridge "x" (GoInt 10)) "x" (GoInt 10) 1);
    [reflexivity|reflexivity|reflexivity|reflexivity|reflexivity|exact more_global_x|lia].
Defined.


Lemma AwaitPromise_returns_wrapper_error_witness :
  exists w',
    AwaitPromise 1 (Sample.started tt false) "({then: function() {}})"
      = Returned (GoNil, Some (Exception (valueString
                    "TypeError: Cannot read property 'catch' of undefined"))) w' /\
    eventloop.auxJobs (loop (runner w')) = [] /\
    eventloop.timers (loop (runner w')) = [] /\
    eventloop.vm (loop (runner w')) = ∅.
Proof.
  apply (AwaitPromise_returns_wrapper_error (Sample.started tt false) _ ∅ _ 1);
    [reflexivity|reflexivity|reflexivity|lia].
Defined.

Lemma AwaitPromise_polls_while_pending_witness :
  AwaitPromise 50 (Sample.started tt false) "new Promise(function() {})" = OutOfFuel.
Proof.
  apply (AwaitPromise_polls_while_pending (Sample.started tt false)
           "new Promise(function() {})" ∅ MoreSamples.foreverPending 50); reflexivity.
Defined.

Lemma AwaitPromise_fulfilled_witness :
  exists w',
    AwaitPromise 5 (Sample.started tt false)
      "new Promise(function(resolve) { setTimeout(function() { resolve('hello'); }, 50); })"
      = Returned (GoString "hello", None) w' /\
    eventloop.timers (loop (runner w')) = [].
Proof.
  apply (AwaitPromise_fulfilled (Sample.started tt false) _ ∅
           (Sample.promise 3 true (valueString "hello")) 3 (valueString "hello") 5);
    [reflexivity|reflexivity|reflexivity|reflexivity|lia].
Defined.

Lemma AwaitPromise_rejected_with_reason_witness :
  exists w',
    AwaitPromise 5 (Sample.started tt false)
      "new Promise(function(resolve, reject) { setTimeout(function() { reject('error message'); }, 50); })"
      = Returned (GoNil, Some (errorString "promise rejected: error message")) w' /\
    Error (errorString "promise rejected: error message")
      = "promise rejected: error message".
Proof.
  apply (AwaitPromise_rejected_with_reason (Sample.started tt false) _ ∅
           (Sample.promise 3 false (valueString "error message")) 3
           (valueString "error message") 5);
    [reflexivity|reflexivity|reflexivity|reflexivity|discriminate|discriminate|lia].
Defined.

Lemma New_web_access_ready_witness :
  (0 < WebAccess.webAccessTimeout (WebAccess.New [WebAccess.WithWebAccess None]))%Z /\
  (exists c, WebAccess.httpClient (WebAccess.New [WebAccess.WithWebAccess None]) = Some c) /\
  Runner.globals (WebAccess.core (WebAccess.New [WebAccess.WithWebAccess None])) !! "fetchText"
    = Some (GoFunc "fetchText") /\
  Runner.globals (WebAccess.core (WebAccess.New [WebAccess.WithWebAccess None])) !! "fetchJSON"
    = Some (GoFunc "fetchJSON") /\
  Runner.vm (WebAccess.core (WebAccess.New [WebAccess.WithWebAccess None])) !! "fetchText"
    = Some (ToValue (GoFunc "fetchText")) /\
  Runner.vm (WebAccess.core (WebAccess.New [WebAccess.WithWebAccess None])) !! "fetchJSON"
    = Some (ToValue (GoFunc "fetchJSON")).
Proof.
  apply (New_web_access_ready [WebAccess.WithWebAccess None]). reflexivity.
Defined.

Lemma EnableWebAccess_keeps_first_client_witness :
  WebAccess.webAccessTimeout
    (WebAccess.EnableWebAccess
       (WebAccess.EnableWebAccess (WebAccess.New [])
          (Some {| WebAccess.Client := None; WebAccess.Timeout := 5 |}))
       (Some {| WebAccess.Client := None; WebAccess.Timeout := 7 |})) = 7%Z /\
  WebAccess.httpClient
    (WebAccess.EnableWebAccess
       (WebAccess.EnableWebAccess (WebAccess.New [])
          (Some {| WebAccess.Client := None; WebAccess.Timeout := 5 |}))
       (Some {| WebAccess.Client := None; WebAccess.Timeout := 7 |}))
    = Some {| http.Timeout := 5; http.Transport := "" |}.
Proof.
  apply (EnableWebAccess_keeps_first_client (WebAccess.New []) 5 7);
    [reflexivity|lia|lia].
Defined.

End MoreRuns.

(** ** Blank text, the bundler and the React application *)

Section TrimSpaceFacts.

Lemma TrimLeftSpace_blank (s : string) :
  TrimLeftSpace s = "" <-> Forall (fun c => IsSpace c = true) (list_ascii_of_string s).
Proof.
  induction s as [|c s IH]; cbn.
  - split; [constructor|reflexivity].
  - destruct (IsSpace c) eqn:Hc.
    + rewrite IH. split; [now constructor|now inversion 1].
    + split; [discriminate|]. inversion 1; congruence.
Qed.

Lemma TrimLeftSpace_head (s : string) :
  match TrimLeftSpace s with
  | EmptyString => True
  | String c _ => IsSpace c = false
  end.
Proof.
  induction s as [|c s IH]; cbn; [exact I|].
  destruct (IsSpace c) eqn:Hc; [exact IH|exact Hc].
Qed.

Lemma TrimRightSpace_head (c : ascii) (s : string) :
  IsSpace c = false -> TrimRightSpace (String c s) <> "".
Proof.
  intros Hc. cbn. destruct (TrimRightSpace s); [rewrite Hc|]; discriminate.
Qed.

(** A text trims to nothing exactly when all its characters are white
    space. *)
Lemma TrimSpace_blank (s : string) :
  TrimSpace s = "" <-> Forall (fun c => IsSpace c = true) (list_ascii_of_string s).
Proof.
  rewrite <- TrimLeftSpace_blank. unfold TrimSpace.
  pose proof (TrimLeftSpace_head s) as Hhead.
  destruct (TrimLeftSpace s) as [|c t]; [now split|].
  split; [|discriminate]. intros Hr. now apply TrimRightSpace_head in Hr.
Qed.

Lemma TrimSpace_eqb (s : string) :
  String.eqb (TrimSpace s) ""
    = bool_decide (Forall (fun c => IsSpace c = true) (list_ascii_of_string s)).
Proof.
  destruct (String.eqb_spec (TrimSpace s) "") as [He|He].
  - symmetry. apply bool_decide_eq_true. now apply TrimSpace_blank.
  - symmetry. apply bool_decide_eq_false. now rewrite <- TrimSpace_blank.
Qed.

End TrimSpaceFacts.

Section BundlerFacts.
Context `{NumberText} `{bundler.Esbuild}.
Import bundler.

(** A module that was loaded once is served from the resolver's cache from
    then on: after a successful [OnLoad] of a URL, every later [OnLoad] of
    that URL returns the same text and leaves the resolver as it is,
    whatever the network answers then; and a load never drops or changes an
    entry the cache already had. *)
Theorem onLoad_memoises (get : string -> Response + error) (r r' : remoteResolver)
        (path text : string) :
  onLoad get r path = (r', inl text) ->
  cache r' !! path = Some text /\
  (forall p t, cache r !! p = Some t -> cache r' !! p = Some t) /\
  (forall get', onLoad get' r' path = (r', inl text)).
Proof.
  unfold onLoad. destruct (cache r !! path) as [t0|] eqn:Hc.
  - intros [= <- <-]. rewrite Hc. auto.
  - destruct (get path) as [resp|err]; [|discriminate].
    destruct (400 <=? StatusCode resp)%Z; [discriminate|].
    destruct (Body resp) as [body|err]; [|discriminate].
    intros [= <- <-]. cbn. rewrite lookup_insert_eq.
    split; [reflexivity|]. split.
    + intros p t Hp. destruct (decide (path = p)) as [->|Hne]; [congruence|].
      now rewrite lookup_insert_ne.
    + intros get'. reflexivity.
Qed.

(** A load that fails stores nothing: after a network error, a status of
    400 or more, or a body that cannot be read, the resolver is as it was
    and has no entry for the URL, so the next load asks the network again. *)
Theorem onLoad_failure_not_cached (get : string -> Response + error) (r r' : remoteResolver)
        (path : string) (err : error) :
  onLoad get r path = (r', inr err) ->
  r' = r /\ cache r !! path = None /\
  (forall get', onLoad get' r' path
                = match get' path with
                  | inr e => (r, inr e)
                  | inl resp =>
                      if (400 <=? StatusCode resp)%Z
                      then (r, inr (errorString ("fetch " +:+ path +:+ " failed with "
                                                   +:+ pretty (StatusCode resp))))
                      else match Body resp with
                           | inr e => (r, inr e)
                           | inl text =>
                               ({| cache := <[path := text]> (cache r);
                                   reactVersion := reactVersion r |}, inl text)
                           end
                  end).
Proof.
  unfold onLoad. destruct (cache r !! path) as [t0|] eqn:Hc; [discriminate|].
  intros Heq.
  assert (Hr : r' = r).
  { destruct (get path) as [resp|e]; [|congruence].
    destruct (400 <=? StatusCode resp)%Z; [congruence|].
    destruct (Body resp); [discriminate|congruence]. }
  subst r'. rewrite Hc. auto.
Qed.

(** [BuildReactBundles] returns bundles only when both entries are not
    blank and both builds reported no error and at least one output file.
    The server bundle is the first output file of the Node build of the
    server entry, the client bundle the first output file of the browser
    build of the client entry; the client build runs with the resolver (and
    so the cache) that the server build left; an empty React version
    stands for 18.3.1. *)
Theorem BuildReactBundles_success (opts : ReactOptions) (b : ReactBundles) :
  BuildReactBundles opts = inl b ->
  TrimSpace (SSREntry opts) <> "" /\
  TrimSpace (ClientEntry opts) <> "" /\
  exists res1 rs1 res2 rs2,
    Build {| Platform_ := PlatformNode; Contents := SSREntry opts;
             Sourcefile := "app-ssr.tsx" |}
          (newRemoteResolver (if String.eqb (ReactVersion opts) "" then "18.3.1"
                              else ReactVersion opts)) = (res1, rs1) /\
    Errors res1 = [] /\
    head (OutputFiles res1) = Some (SSR b) /\
    Build {| Platform_ := PlatformBrowser; Contents := ClientEntry opts;
             Sourcefile := "app-client.tsx" |} rs1 = (res2, rs2) /\
    Errors res2 = [] /\
    head (OutputFiles res2) = Some (Client b).
Proof.
  unfold BuildReactBundles, buildBundle, defaultReactVersion.
  destruct (String.eqb_spec (TrimSpace (SSREntry opts)) "") as [|Hs]; [discriminate|].
  destruct (String.eqb_spec (TrimSpace (ClientEntry opts)) "") as [|Hc]; [discriminate|].
  destruct (Build _ (newRemoteResolver _)) as [res1 rs1] eqn:H1.
  destruct (Errors res1) as [|e1 ?] eqn:He1; [|discriminate].
  destruct (OutputFiles res1) as [|f1 ?] eqn:Ho1; [discriminate|].
  destruct (Build _ rs1) as [res2 rs2] eqn:H2.
  destruct (Errors res2) as [|e2 ?] eqn:He2; [|discriminate].
  destruct (OutputFiles res2) as [|f2 ?] eqn:Ho2; [discriminate|].
  intros [= <-]. split; [exact Hs|]. split; [exact Hc|].
  exists res1, rs1, res2, rs2. rewrite Ho1, Ho2. cbn. auto 10.
Qed.

End BundlerFacts.

Section ReactAppFacts.
Context `{NumberText} `{Engine} `{bundler.Esbuild}.
Import ReactApp.

(** An entry that is empty or made of white space only counts as missing.
    When the server entry or the client entry is blank, [NewReactApp] fails
    before it takes or creates a runner: no polyfill is loaded and nothing
    is built.  The error names the server entry if that one is blank, the
    client entry otherwise. *)
Theorem NewReactApp_blank_entry (opts : ReactAppOptions) :
  Forall (fun c => IsSpace c = true) (list_ascii_of_string (SSREntry opts)) \/
  Forall (fun c => IsSpace c = true) (list_ascii_of_string (ClientEntry opts)) ->
  NewReactApp opts
    = (None,
       inr (errorString
              (if bool_decide (Forall (fun c => IsSpace c = true)
                                 (list_ascii_of_string (SSREntry opts)))
               then "react ssr entry is required"
               else "react client entry is required"))).
Proof.
  intros Hblank. unfold NewReactApp. rewrite !TrimSpace_eqb.
  destruct (bool_decide (Forall _ (list_ascii_of_string (SSREntry opts)))) eqn:Hs;
    [reflexivity|].
  destruct Hblank as [Hb|Hb].
  - apply bool_decide_eq_false in Hs. contradiction.
  - now rewrite (bool_decide_eq_true_2 _ Hb).
Qed.

(** [NewReactApp] checks the entries before it calls the bundler, so the
    bundler's own complaints about a missing entry never come out of it. *)
Theorem NewReactApp_never_bundler_entry_error (opts : ReactAppOptions) :
  snd (NewReactApp opts) <> inr (errorString "ssr entry is required") /\
  snd (NewReactApp opts) <> inr (errorString "client entry is required").
Proof.
  unfold NewReactApp, bundler.BuildReactBundles.
  cbn [bundler.SSREntry bundler.ClientEntry bundler.ReactVersion].
  destruct (String.eqb (TrimSpace (SSREntry opts)) ""); [split; discriminate|].
  destruct (String.eqb (TrimSpace (ClientEntry opts)) ""); [split; discriminate|].
  set (r0 := match Runner opts with Some r => r | None => _ end).
  assert (Hpoly : forall scripts idx r r' err,
             loadPolyfills r idx scripts = (r', Some err) ->
             exists p e, err = wrapError p e).
  { induction scripts as [|s rest IH]; intros idx r r' err; cbn; [discriminate|].
    destruct (String.eqb (TrimSpace s) ""); [apply IH|].
    destruct (WebAccess.LoadScriptString r s) as [r1 [e1|]]; [|apply IH].
    intros [= <- <-]. eauto. }
  destruct (loadPolyfills r0 0 (Polyfills opts)) as [r1 [err|]] eqn:Hl.
  - destruct (Hpoly _ _ _ _ _ Hl) as (p & e & ->). split; discriminate.
  - destruct (bundler.buildBundle (SSREntry opts) _ _ _) as [rs1 [ssr|e1]];
      [|split; discriminate].
    destruct (bundler.buildBundle (ClientEntry opts) _ _ _) as [rs2 [client|e2]];
      [|split; discriminate].
    cbn [bundler.SSR bundler.Client].
    destruct (WebAccess.LoadScriptString r1 ssr) as [r2 [e|]]; [split; discriminate|].
    destruct (assertGlobalExists r2 "renderApp") as [r3 [e|]]; split; discriminate.
Qed.

Lemma loadPolyfills_blank_prefix (blanks : list string) :
  Forall (fun s => TrimSpace s = "") blanks ->
  forall r idx rest,
    loadPolyfills r idx (blanks ++ rest) = loadPolyfills r (length blanks + idx) rest.
Proof.
  induction 1 as [|s blanks Hs _ IH]; intros r idx rest; [reflexivity|].
  cbn. rewrite Hs. cbn. rewrite IH. f_equal. lia.
Qed.

(** Blank polyfills are skipped but still counted: when the first polyfill
    that is not blank fails to load, the error is [load polyfill[i]: ]
    before the load error, with [i] the position of that polyfill in the
    list as given; the later polyfills are not loaded, and the runner (the
    caller's own, if one was given) is left as the failed load left it. *)
Theorem NewReactApp_polyfill_index (opts : ReactAppOptions)
        (blanks : list string) (script : string) (rest : list string)
        (r' : WebAccess.Runner) (err : error) :
  TrimSpace (SSREntry opts) <> "" ->
  TrimSpace (ClientEntry opts) <> "" ->
  Polyfills opts = blanks ++ script :: rest ->
  Forall (fun s => TrimSpace s = "") blanks ->
  TrimSpace script <> "" ->
  WebAccess.LoadScriptString
    (match Runner opts with
     | Some r => r
     | None => WebAccess.New (RunnerOptions opts)
     end) script = (r', Some err) ->
  NewReactApp opts
    = (Some r',
       inr (wrapError ("load polyfill[" +:+ pretty (length blanks) +:+ "]: ") err)).
Proof.
  intros Hs Hc Hp Hblanks Hscript Hload. unfold NewReactApp.
  destruct (String.eqb_spec (TrimSpace (SSREntry opts)) ""); [contradiction|].
  destruct (String.eqb_spec (TrimSpace (ClientEntry opts)) ""); [contradiction|].
  rewrite Hp, loadPolyfills_blank_prefix by assumption.
  cbn [loadPolyfills].
  destruct (String.eqb_spec (TrimSpace script) ""); [contradiction|].
  rewrite Hload. now rewrite Nat.add_0_r.
Qed.

(** [Render] registers the props as the global [SERVER_PROPS] and leaves
    them registered, whether rendering succeeds or fails; it keeps every
    other registered global, the client bundle and the web access settings.
    Its result is the exported markup of [renderApp(SERVER_PROPS)], or the
    empty string and the evaluation error behind [renderApp failed: ]. *)
Theorem Render_registers_props (ra : ReactApp) (props : GoValue) :
  let r0 := WebAccess.SetGlobal (runner ra) "SERVER_PROPS" props in
  Runner.globals (WebAccess.core (runner (fst (Render ra props))))
    = <["SERVER_PROPS" := props]> (Runner.globals (WebAccess.core (runner ra))) /\
  clientBundle (fst (Render ra props)) = clientBundle ra /\
  WebAccess.webAccessEnabled (runner (fst (Render ra props)))
    = WebAccess.webAccessEnabled (runner ra) /\
  snd (Render ra props)
    = match snd (Runner.Eval (WebAccess.core r0) "renderApp(SERVER_PROPS)") with
      | inl markup => (ExportString (Some markup), None)
      | inr err => ("", Some (wrapError "renderApp failed: " err))
      end.
Proof.
  unfold Render, WebAccess.Eval, Runner.Eval. cbn.
  destruct (RunString _ _) as [vm' [markup|err]]; cbn; auto.
Qed.

End ReactAppFacts.

Section BundlerRuns.
Local Existing Instance Sample.numberText.
Local Existing Instance MoreSamples.engine.
Local Existing Instance SampleBundler.esbuild.

Lemma onLoad_memoises_witness :
  let r' := {| bundler.cache := {["https://esm.sh/react@18.3.1?dev" := "export {}"]};
               bundler.reactVersion := "18.3.1" |} in
  bundler.cache r' !! "https://esm.sh/react@18.3.1?dev" = Some "export {}" /\
  (forall p t, bundler.cache (bundler.newRemoteResolver "18.3.1") !! p = Some t ->
               bundler.cache r' !! p = Some t) /\
  (forall get', bundler.onLoad get' r' "https://esm.sh/react@18.3.1?dev"
                = (r', inl "export {}")).
Proof.
  apply (onLoad_memoises (SampleBundler.serves "export {}")
           (bundler.newRemoteResolver "18.3.1")).
  reflexivity.
Defined.

Lemma onLoad_failure_not_cached_witness :
  bundler.onLoad SampleBundler.missing (bundler.newRemoteResolver "18.3.1")
                 "https://esm.sh/react"
    = (bundler.newRemoteResolver "18.3.1",
       inr (errorString "fetch https://esm.sh/react failed with 404")) /\
  bundler.onLoad (SampleBundler.serves "export {}") (bundler.newRemoteResolver "18.3.1")
                 "https://esm.sh/react"
    = ({| bundler.cache := {["https://esm.sh/react" := "export {}"]};
          bundler.reactVersion := "18.3.1" |}, inl "export {}").
Proof.
  split; [vm_compute; reflexivity|].
  destruct (onLoad_failure_not_cached SampleBundler.missing
              (bundler.newRemoteResolver "18.3.1") (bundler.newRemoteResolver "18.3.1")
              "https://esm.sh/react"
              (errorString "fetch https://esm.sh/react failed with 404"))
    as (_ & _ & Hnext); [vm_compute; reflexivity|].
  exact (Hnext (SampleBundler.serves "export {}")).
Defined.

Lemma BuildReactBundles_success_witness :
  bundler.BuildReactBundles
    {| bundler.ReactVersion := ""; bundler.SSREntry := "server";
       bundler.ClientEntry := "client" |}
    = inl {| bundler.SSR := "server"; bundler.Client := "client" |} /\
  TrimSpace "server" <> "" /\ TrimSpace "client" <> "".
Proof.
  split; [reflexivity|].
  destruct (BuildReactBundles_success
              {| bundler.ReactVersion := ""; bundler.SSREntry := "server";
                 bundler.ClientEntry := "client" |}
              {| bundler.SSR := "server"; bundler.Client := "client" |})
    as (Hs & Hc & _); [reflexivity|].
  split; assumption.
Defined.

Lemma NewReactApp_blank_entry_witness :
  ReactApp.NewReactApp SampleBundler.blankServerEntry
    = (None, inr (errorString "react ssr entry is required")).
Proof.
  apply (NewReactApp_blank_entry SampleBundler.blankServerEntry).
  left. repeat constructor.
Defined.

Lemma NewReactApp_polyfill_index_witness :
  ReactApp.NewReactApp SampleBundler.brokenPolyfill
    = (Some (WebAccess.New []),
       inr (wrapError "load polyfill[1]: "
              (wrapError "failed to execute script: "
                 (CompilerSyntaxError "Unexpected token ;")))).
Proof.
  apply (NewReactApp_polyfill_index SampleBundler.brokenPolyfill [" "] "var x = ;" ["42"]
           (WebAccess.New [])
           (wrapError "failed to execute script: " (CompilerSyntaxError "Unexpected token ;")));
    [discriminate|discriminate|reflexivity|repeat constructor|discriminate|reflexivity].
Defined.

End BundlerRuns.
